(** * Vehicle light detection, tracking and blink classification

    A shallow embedding of [light_detector.py] (class [LightDetector]),
    of [EnhancedLightDetector.classify_with_model] in [inference.py] and of
    the feature loop of [LightModelTrainer.extract_features] in
    [train_model.py], followed by the properties of the tracking and
    classification pipeline.

    Conventions of the embedding.
    - A Python [dict] keeps insertion order and the tracker iterates over
      it, so it is an association list with Python's update discipline
      (module [PyDict]).
    - [collections.deque(maxlen=n)] is a list with the append-then-trim
      behaviour of CPython.
    - Python [int] is [Z] (or [nat] for lengths and counters that are
      never negative); intensities and areas, which are finite floats, are
      rationals [Q]; [float('inf')] is the extra point of [xfloat].
    - Methods that mutate [self] take and return the [LightDetector] record.
    - Calls into OpenCV and the numeric kernels of NumPy are fields of the
      interface records [OpenCV] and [NumPy]. *)

From Stdlib Require Import String Ascii List ZArith QArith Lia Bool DecimalString.
Import ListNotations.

Local Open Scope Z_scope.

(* ------------------------------------------------------------------ *)
(** ** Python containers *)

Module PyDict.
Section Dict.
Context {V : Type}.

Definition t : Type := list (string * V).

Definition empty : t := [].

(** [d[k]] / [d.get(k)] *)
Fixpoint get (k : string) (d : t) : option V :=
  match d with
  | [] => None
  | (k', v) :: d' => if String.eqb k k' then Some v else get k d'
  end.

(** [k in d] *)
Definition mem (k : string) (d : t) : bool :=
  match get k d with Some _ => true | None => false end.

(** [d[k] = v]: an existing key keeps its position, a new key goes last. *)
Fixpoint set (k : string) (v : V) (d : t) : t :=
  match d with
  | [] => [(k, v)]
  | (k', v') :: d' =>
      if String.eqb k k' then (k, v) :: d' else (k', v') :: set k v d'
  end.

(** [del d[k]] *)
Fixpoint del (k : string) (d : t) : t :=
  match d with
  | [] => []
  | (k', v') :: d' =>
      if String.eqb k k' then del k d' else (k', v') :: del k d'
  end.

Definition keys (d : t) : list string := map fst d.

Definition len (d : t) : nat := length d.
End Dict.
Arguments t : clear implicits.
End PyDict.

Module Deque.
Section Deque.
Context {A : Type}.

(** [dq.append(x)] on a [deque(maxlen=maxlen)]: the element is linked at
    the right end and, if the size then exceeds [maxlen], one element is
    popped from the left. *)
Definition append (maxlen : nat) (dq : list A) (x : A) : list A :=
  let dq' := dq ++ [x] in
  if (maxlen <? length dq')%nat then tl dq' else dq'.

(** [dq[-1]] guarded by [len(dq) > 0] *)
Fixpoint last (dq : list A) : option A :=
  match dq with
  | [] => None
  | [x] => Some x
  | _ :: dq' => last dq'
  end.
End Deque.
End Deque.

(* ------------------------------------------------------------------ *)
(** ** Numbers *)

(** Strict comparison of two floats with rational values. *)
Definition Qltb (a b : Q) : bool := negb (Qle_bool b a).

(** A float that is either finite or [float('inf')]. *)
Inductive xfloat : Type :=
| Fin (q : Q)
| Inf.

(** [a < b] on [xfloat] *)
Definition xlt (a b : xfloat) : bool :=
  match a, b with
  | Fin x, Fin y => Qltb x y
  | Fin _, Inf => true
  | Inf, _ => false
  end.

Definition is_finite (a : xfloat) : bool :=
  match a with Fin _ => true | Inf => false end.

(** [np.mean] of a non-empty list of Python ints. *)
Definition mean_int (l : list nat) : Q :=
  Qmake (Z.of_nat (fold_right Nat.add 0%nat l)) 1 / Qmake (Z.of_nat (length l)) 1.

(* ------------------------------------------------------------------ *)
(** ** Data model *)

(** One entry of [detected_lights]. *)
Record Light : Type := mkLight {
  bbox : Z * Z * Z * Z;
  center : Z * Z;
  area : Q;
  intensity : Q;
  id : nat
}.

(** One entry of a track history. *)
Record Observation : Type := mkObservation {
  o_center : Z * Z;
  o_intensity : Q;
  o_frame : Z;
  o_on : bool
}.

Definition History : Type := list Observation.

(** The attributes of a [LightDetector] instance. *)
Record LightDetector : Type := mkLightDetector {
  frame_buffer_size : nat;
  light_history : PyDict.t History;
  frame_count : Z
}.

(** [LightDetector.__init__] *)
Definition init (frame_buffer_size : nat) : LightDetector :=
  {| frame_buffer_size := frame_buffer_size;
     light_history := PyDict.empty;
     frame_count := 0 |}.

Definition default_frame_buffer_size : nat := 30.

Inductive label : Type :=
| running_light
| hazard_light
| unknown.

(* ------------------------------------------------------------------ *)
(** ** [LightDetector.track_lights] *)

(** The tracker compares [np.sqrt(dx**2 + dy**2)] with [50] and with the
    running minimum.  The operand is an exact integer and the square root
    is monotone and separates the integers below 2500, so both tests are
    decided on the squared distance. *)
Definition sq_distance (c l : Z * Z) : Z :=
  (fst c - fst l) ^ 2 + (snd c - snd l) ^ 2.

(** [distance < min_distance], with [None] for [float('inf')] *)
Definition below_min (distance : Z) (min_distance : option Z) : bool :=
  match min_distance with
  | None => true
  | Some m => distance <? m
  end.

(** Body of the loop over [self.light_history.items()]; the accumulator is
    [(light_id, min_distance)]. *)
Definition closest_step (c : Z * Z) (acc : option string * option Z)
    (entry : string * History) : option string * option Z :=
  let '(prev_id, history) := entry in
  match Deque.last history with
  | None => acc
  | Some last_obs =>
      let distance := sq_distance c (o_center last_obs) in
      if (distance <? 50 * 50) && below_min distance (snd acc)
      then (Some prev_id, Some distance)
      else acc
  end.

Definition find_closest (c : Z * Z) (hist : PyDict.t History) : option string :=
  fst (fold_left (closest_step c) hist (None, None)).

(** [f"light_{len(self.light_history)}"] *)
Definition new_light_id (hist : PyDict.t History) : string :=
  ("light_" ++ NilZero.string_of_uint (Nat.to_uint (PyDict.len hist)))%string.

Definition make_observation (light : Light) (frame_number : Z) : Observation :=
  {| o_center := center light;
     o_intensity := intensity light;
     o_frame := frame_number;
     o_on := Qltb 180 (intensity light) |}.

(** The id chosen for a region, and the history mapping once the id exists. *)
Definition assign_id (hist : PyDict.t History) (light : Light)
    : string * PyDict.t History :=
  match find_closest (center light) hist with
  | Some prev_id => (prev_id, hist)
  | None =>
      let light_id := new_light_id hist in
      (light_id, PyDict.set light_id [] hist)
  end.

(** [self.light_history[light_id].append(obs)] *)
Definition append_observation (maxlen : nat) (light_id : string)
    (obs : Observation) (hist : PyDict.t History) : PyDict.t History :=
  match PyDict.get light_id hist with
  | Some dq => PyDict.set light_id (Deque.append maxlen dq obs) hist
  | None => hist
  end.

(** Body of [for light in detected_lights]; the accumulator is
    [(self.light_history, current_light_states)]. *)
Definition track_one (maxlen : nat) (frame_number : Z)
    (acc : PyDict.t History * PyDict.t Light) (light : Light)
    : PyDict.t History * PyDict.t Light :=
  let '(hist, current_light_states) := acc in
  let '(light_id, hist1) := assign_id hist light in
  (append_observation maxlen light_id (make_observation light frame_number) hist1,
   PyDict.set light_id light current_light_states).

(** [light_id in active_ids] *)
Definition in_ids (light_id : string) (active_ids : list string) : bool :=
  existsb (String.eqb light_id) active_ids.

(** Body of the clean-up loop over [list(self.light_history.keys())]. *)
Definition cleanup_step (frame_number : Z) (active_ids : list string)
    (hist : PyDict.t History) (light_id : string) : PyDict.t History :=
  if in_ids light_id active_ids then hist
  else
    match PyDict.get light_id hist with
    | Some history =>
        match Deque.last history with
        | Some last_obs =>
            if 10 <? frame_number - o_frame last_obs
            then PyDict.del light_id hist
            else hist
        | None => hist
        end
    | None => hist
    end.

Definition cleanup (frame_number : Z) (active_ids : list string)
    (hist : PyDict.t History) : PyDict.t History :=
  fold_left (cleanup_step frame_number active_ids) (PyDict.keys hist) hist.

Definition track_lights (self : LightDetector) (detected_lights : list Light)
    (frame_number : Z) : LightDetector * PyDict.t Light :=
  let '(hist, current_light_states) :=
    fold_left (track_one (frame_buffer_size self) frame_number)
              detected_lights (light_history self, PyDict.empty) in
  let active_ids := PyDict.keys current_light_states in
  ({| frame_buffer_size := frame_buffer_size self;
      light_history := cleanup frame_number active_ids hist;
      frame_count := frame_count self |},
   current_light_states).

(* ------------------------------------------------------------------ *)
(** ** [LightDetector.classify_light_type] *)

(** [states[i] != states[i-1]] *)
Definition flip_at (states : list bool) (i : nat) : bool :=
  negb (Bool.eqb (nth i states false) (nth (i - 1) states false)).

(** [sum(1 for i in range(1, len(states)) if states[i] != states[i-1])] *)
Definition transitions (states : list bool) : nat :=
  length (filter (flip_at states) (seq 1 (length states - 1))).

(** State of the run-length loop. *)
Record RunState : Type := mkRunState {
  current_state : bool;
  current_duration : nat;
  on_periods : list nat;
  off_periods : list nat
}.

(** [on_periods.append(d)] or [off_periods.append(d)] according to the state. *)
Definition close_run (r : RunState) : list nat * list nat :=
  if current_state r
  then (on_periods r ++ [current_duration r], off_periods r)
  else (on_periods r, off_periods r ++ [current_duration r]).

(** Body of [for i in range(1, len(states))], on [states[i]]. *)
Definition run_step (r : RunState) (s : bool) : RunState :=
  if Bool.eqb s (current_state r)
  then {| current_state := current_state r;
          current_duration := S (current_duration r);
          on_periods := on_periods r;
          off_periods := off_periods r |}
  else {| current_state := s;
          current_duration := 1;
          on_periods := fst (close_run r);
          off_periods := snd (close_run r) |}.

(** The two period lists after the loop and the final append.  [states[0]]
    is read first; the caller has at least ten states. *)
Definition periods (states : list bool) : list nat * list nat :=
  match states with
  | [] => ([], [])
  | s0 :: rest =>
      close_run
        (fold_left run_step rest
           {| current_state := s0; current_duration := 1;
              on_periods := []; off_periods := [] |})
  end.

(** [np.mean(ps) if ps else float('inf')] *)
Definition avg_period (ps : list nat) : xfloat :=
  match ps with
  | [] => Inf
  | _ :: _ => Fin (mean_int ps)
  end.

(** The decision on the ordered on/off states of one history. *)
Definition classify_states (states : list bool) : label :=
  if (length states <? 10)%nat then unknown
  else
    let transitions := transitions states in
    if (transitions =? 0)%nat then running_light
    else
      let '(on_periods, off_periods) := periods states in
      let avg_on_period := avg_period on_periods in
      let avg_off_period := avg_period off_periods in
      if (3 <? transitions)%nat
         && xlt (Fin 5) avg_on_period && xlt avg_on_period (Fin 30)
         && xlt (Fin 5) avg_off_period && xlt avg_off_period (Fin 30)
      then hazard_light
      else if (0 <? transitions)%nat
              && (xlt avg_on_period (Fin 5) || xlt avg_off_period (Fin 5))
      then hazard_light
      else running_light.

Definition classify_light_type (self : LightDetector) (light_id : string) : label :=
  match PyDict.get light_id (light_history self) with
  | None => unknown
  | Some history => classify_states (map o_on history)
  end.

(* ------------------------------------------------------------------ *)
(** ** [LightDetector.detect_lights] and [LightDetector.process_frame] *)

(** Exceptions that escape a method. *)
Inductive exn : Type :=
| cv2_error (msg : string).

(** A call either returns or raises. *)
Inductive result (A : Type) : Type :=
| Ok (a : A)
| Raise (e : exn).
Arguments Ok {A} a.
Arguments Raise {A} e.

Definition bind {A B : Type} (r : result A) (k : A -> result B) : result B :=
  match r with
  | Ok a => k a
  | Raise e => Raise e
  end.

Notation "x <- r ;; k" := (bind r (fun x => k))
  (at level 61, r at next level, right associativity).

Inductive morph_op : Type :=
| MORPH_CLOSE
| MORPH_OPEN.

(** The OpenCV and NumPy array operations [detect_lights] calls.  Colour
    conversion is the operation that rejects an array of the wrong format. *)
Record OpenCV : Type := mkOpenCV {
  ndarray : Type;
  contour : Type;
  cvtColor_BGR2HSV : ndarray -> result ndarray;
  cvtColor_BGR2GRAY : ndarray -> result ndarray;
  inRange : ndarray -> Z * Z * Z -> Z * Z * Z -> ndarray;
  bitwise_or : ndarray -> ndarray -> ndarray;
  morphologyEx : ndarray -> morph_op -> nat -> ndarray;
  findContours : ndarray -> list contour;
  contourArea : contour -> Q;
  boundingRect : contour -> Z * Z * Z * Z;
  roi_slice : ndarray -> Z * Z * Z * Z -> ndarray;
  np_mean_pixels : ndarray -> Q
}.

(** Body of [for contour in contours]. *)
Definition detect_contour (cv : OpenCV) (frame : ndarray cv)
    (detected_lights : list Light) (c : contour cv) : result (list Light) :=
  let area := contourArea cv c in
  if Qltb 100 area && Qltb area 50000 then
    let '(x, y, w, h) := boundingRect cv c in
    let aspect_ratio := if 0 <? h then (inject_Z w / inject_Z h)%Q else 0%Q in
    if Qltb (1 # 2) aspect_ratio && Qltb aspect_ratio 3 then
      gray <- cvtColor_BGR2GRAY cv (roi_slice cv frame (x, y, w, h)) ;;
      let intensity := np_mean_pixels cv gray in
      if Qltb 150 intensity then
        Ok (detected_lights ++
            [{| bbox := (x, y, w, h);
                center := (x + w / 2, y + h / 2);
                area := area;
                intensity := intensity;
                id := length detected_lights |}])
      else Ok detected_lights
    else Ok detected_lights
  else Ok detected_lights.

Definition detect_lights (cv : OpenCV) (frame : ndarray cv) : result (list Light) :=
  hsv <- cvtColor_BGR2HSV cv frame ;;
  let mask_white := inRange cv hsv (0, 0, 200) (180, 30, 255) in
  let mask_yellow := inRange cv hsv (20, 100, 100) (30, 255, 255) in
  let mask := bitwise_or cv mask_white mask_yellow in
  let mask := morphologyEx cv mask MORPH_CLOSE 5 in
  let mask := morphologyEx cv mask MORPH_OPEN 5 in
  let contours := findContours cv mask in
  fold_left
    (fun acc c => detected_lights <- acc ;; detect_contour cv frame detected_lights c)
    contours (Ok []).

Definition with_frame_count (self : LightDetector) (n : Z) : LightDetector :=
  {| frame_buffer_size := frame_buffer_size self;
     light_history := light_history self;
     frame_count := n |}.

(** [process_frame] returns the detector as the call leaves it, together
    with the returned pair or the exception that escaped. *)
Definition process_frame (cv : OpenCV) (self : LightDetector) (frame : ndarray cv)
    : LightDetector * result (list Light * PyDict.t label) :=
  let self := with_frame_count self (frame_count self + 1) in
  match detect_lights cv frame with
  | Raise e => (self, Raise e)
  | Ok detected_lights =>
      let '(self, tracked_lights) :=
        track_lights self detected_lights (frame_count self) in
      let classifications :=
        fold_left
          (fun cls light_id => PyDict.set light_id (classify_light_type self light_id) cls)
          (PyDict.keys tracked_lights) PyDict.empty in
      (self, Ok (detected_lights, classifications))
  end.

(** Successive [process_frame] calls on one detector. *)
Definition run_frames (cv : OpenCV) (self : LightDetector) (frames : list (ndarray cv))
    : LightDetector :=
  fold_left (fun s frame => fst (process_frame cv s frame)) frames self.

(** Successive [track_lights] calls on one detector. *)
Definition run_calls (self : LightDetector) (calls : list (list Light * Z))
    : LightDetector :=
  fold_left (fun s call => fst (track_lights s (fst call) (snd call))) calls self.

(* ------------------------------------------------------------------ *)
(** ** Feature vectors: [classify_with_model] and [extract_features] *)

(** The floating-point kernels both feature computations call. *)
Record NumPy : Type := mkNumPy {
  float64 : Type;
  np_mean : list Q -> float64;
  np_std : list Q -> float64;
  np_var : list Q -> float64;
  np_sqrt : float64 -> float64;
  float_add : float64 -> float64 -> float64;
  true_div : Z -> Z -> float64;
  float_of_int : Z -> float64
}.

(** [sum(states)] *)
Definition count_on (states : list bool) : nat :=
  length (filter (fun s => s) states).

Definition ints (l : list nat) : list Q :=
  map (fun n => inject_Z (Z.of_nat n)) l.

Definition coords (l : list Z) : list Q := map inject_Z l.

(** The [periods] loop shared in shape by both feature computations: every
    run is appended to one list. *)
Definition all_periods_step (acc : bool * nat * list nat) (s : bool)
    : bool * nat * list nat :=
  let '(current_state, current_duration, periods) := acc in
  if Bool.eqb s current_state
  then (current_state, S current_duration, periods)
  else (s, 1%nat, periods ++ [current_duration]).

Definition all_periods (states : list bool) : list nat :=
  match states with
  | [] => []
  | s0 :: rest =>
      let '(_, current_duration, periods) :=
        fold_left all_periods_step rest (s0, 1%nat, []) in
      periods ++ [current_duration]
  end.

(** [inference.py], [classify_with_model], from [intensities = ...] to the
    row of [feature_vector]. *)
Definition feature_vector_online (np : NumPy) (history : History) : list (float64 np) :=
  let intensities := map o_intensity history in
  let states := map o_on history in
  let mean_intensity := np_mean np intensities in
  let std_intensity := np_std np intensities in
  let transitions := transitions states in
  let on_ratio :=
    true_div np (Z.of_nat (count_on states)) (Z.of_nat (length states)) in
  let '(avg_period, period_std) :=
    if (0 <? transitions)%nat then
      let periods := all_periods states in
      (match periods with
       | [] => float_of_int np 0
       | _ :: _ => np_mean np (ints periods)
       end,
       if (1 <? length periods)%nat then np_std np (ints periods)
       else float_of_int np 0)
    else (float_of_int np (Z.of_nat (length states)), float_of_int np 0) in
  let centers := map o_center history in
  let center_x := np_mean np (coords (map fst centers)) in
  let center_y := np_mean np (coords (map snd centers)) in
  let movement :=
    np_sqrt np (float_add np (np_var np (coords (map fst centers)))
                             (np_var np (coords (map snd centers)))) in
  [mean_intensity; std_intensity; float_of_int np (Z.of_nat transitions); on_ratio;
   avg_period; period_std; center_x; center_y;
   movement; float_of_int np (Z.of_nat (length history))].

(** [EnhancedLightDetector.classify_with_model]; [model] is
    [self.model] and a present model is its [predict] on one row. *)
Definition classify_with_model (np : NumPy)
    (model : option (list (float64 np) -> label))
    (self : LightDetector) (light_id : string) : label :=
  match model with
  | None => classify_light_type self light_id
  | Some predict =>
      match PyDict.get light_id (light_history self) with
      | None => unknown
      | Some history =>
          if (length history <? 10)%nat then unknown
          else predict (feature_vector_online np history)
      end
  end.

(** [train_model.py], [extract_features], from [intensities = ...] to
    [feature_vector]. *)
Definition feature_vector_training (np : NumPy) (history : History) : list (float64 np) :=
  let intensities := map o_intensity history in
  let states := map o_on history in
  let mean_intensity := np_mean np intensities in
  let std_intensity := np_std np intensities in
  let transitions := transitions states in
  let on_ratio :=
    true_div np (Z.of_nat (count_on states)) (Z.of_nat (length states)) in
  let '(avg_period, period_std) :=
    if (0 <? transitions)%nat then
      let periods := all_periods states in
      (match periods with
       | [] => float_of_int np 0
       | _ :: _ => np_mean np (ints periods)
       end,
       if (1 <? length periods)%nat then np_std np (ints periods)
       else float_of_int np 0)
    else (float_of_int np (Z.of_nat (length states)), float_of_int np 0) in
  let centers := map o_center history in
  let center_x := np_mean np (coords (map fst centers)) in
  let center_y := np_mean np (coords (map snd centers)) in
  let movement :=
    np_sqrt np (float_add np (np_var np (coords (map fst centers)))
                             (np_var np (coords (map snd centers)))) in
  [mean_intensity;
   std_intensity;
   float_of_int np (Z.of_nat transitions);
   on_ratio;
   avg_period;
   period_std;
   center_x;
   center_y;
   movement;
   float_of_int np (Z.of_nat (length history))].

(** Body of [for light_id, light in self.detector.light_history.items()];
    the accumulator is [(self.features, self.labels)]. *)
Definition extract_features_step (np : NumPy) (detector : LightDetector)
    (lbl : label) (acc : list (list (float64 np)) * list label)
    (item : string * History) : list (list (float64 np)) * list label :=
  match PyDict.get (fst item) (light_history detector) with
  | None => acc
  | Some history =>
      if (10 <=? length history)%nat
      then (fst acc ++ [feature_vector_training np history], snd acc ++ [lbl])
      else acc
  end.

Definition extract_features_loop (np : NumPy) (detector : LightDetector)
    (lbl : label) (acc : list (list (float64 np)) * list label)
    : list (list (float64 np)) * list label :=
  fold_left (extract_features_step np detector lbl) (light_history detector) acc.

(* ------------------------------------------------------------------ *)
(** ** The classification rule as the specification words it *)

(** Count of adjacent positions where the state flips. *)
Fixpoint spec_transitions (states : list bool) : nat :=
  match states with
  | a :: (b :: _) as rest =>
      ((if xorb a b then 1 else 0) + spec_transitions rest)%nat
  | _ => 0%nat
  end.

(** The maximal constant-value runs of a sequence, in order, each with its
    value and its length. *)
Fixpoint spec_runs (states : list bool) : list (bool * nat) :=
  match states with
  | [] => []
  | s :: rest =>
      match spec_runs rest with
      | (s', n) :: runs =>
          if Bool.eqb s s' then (s, S n) :: runs else (s, 1%nat) :: (s', n) :: runs
      | [] => [(s, 1%nat)]
      end
  end.

Definition spec_on_periods (states : list bool) : list nat :=
  map snd (filter (fun r => fst r) (spec_runs states)).

Definition spec_off_periods (states : list bool) : list nat :=
  map snd (filter (fun r => negb (fst r)) (spec_runs states)).

(** Arithmetic mean, [+infinity] for an empty list. *)
Definition spec_mean (l : list nat) : xfloat :=
  match l with
  | [] => Inf
  | _ :: _ =>
      Fin (inject_Z (Z.of_nat (list_sum l)) / inject_Z (Z.of_nat (length l)))
  end.

(** [x] lies strictly inside [(lo, hi)]. *)
Definition strictly_inside (lo hi : Q) (x : xfloat) : bool :=
  xlt (Fin lo) x && xlt x (Fin hi).

(** Rule of the Light-State Classifier on an ordered on/off history. *)
Definition spec_rule (states : list bool) : label :=
  if (length states <? 10)%nat then unknown
  else if (spec_transitions states =? 0)%nat then running_light
  else
    let avg_on := spec_mean (spec_on_periods states) in
    let avg_off := spec_mean (spec_off_periods states) in
    if (3 <? spec_transitions states)%nat
       && strictly_inside 5 30 avg_on && strictly_inside 5 30 avg_off
    then hazard_light
    else if (0 <? spec_transitions states)%nat
            && (xlt avg_on (Fin 5) || xlt avg_off (Fin 5))
    then hazard_light
    else running_light.

(** The runs of [n] copies of [s] followed by a sequence whose runs are
    [runs]. *)
Definition extend_run (s : bool) (n : nat) (runs : list (bool * nat))
    : list (bool * nat) :=
  match runs with
  | (s', m) :: runs' =>
      if Bool.eqb s s' then (s, (n + m)%nat) :: runs' else (s, n) :: (s', m) :: runs'
  | [] => [(s, n)]
  end.

(** The lengths of the runs with value [b]. *)
Definition run_lengths (b : bool) (runs : list (bool * nat)) : list nat :=
  map snd (filter (fun r => Bool.eqb (fst r) b) runs).

(* ------------------------------------------------------------------ *)
(** ** Predicates used by the statements *)

(** Frame of the most recent observation of a track. *)
Definition last_seen (self : LightDetector) (light_id : string) : option Z :=
  match PyDict.get light_id (light_history self) with
  | Some history => option_map o_frame (Deque.last history)
  | None => None
  end.

(** The track is live. *)
Definition live (self : LightDetector) (light_id : string) : bool :=
  PyDict.mem light_id (light_history self).

(** Every frame number of [fs] is above [f0] and above its predecessor. *)
Fixpoint increasing_from (f0 : Z) (fs : list Z) : bool :=
  match fs with
  | [] => true
  | f :: fs' => (f0 <? f) && increasing_from f fs'
  end.

(** No call of [calls] gives [light_id] an observation: the id is never a
    key of the returned [current_light_states]. *)
Fixpoint unobserved (light_id : string) (self : LightDetector)
    (calls : list (list Light * Z)) : bool :=
  match calls with
  | [] => true
  | (detected_lights, frame_number) :: calls' =>
      let '(self', current_light_states) :=
        track_lights self detected_lights frame_number in
      negb (PyDict.mem light_id current_light_states)
      && unobserved light_id self' calls'
  end.

(** The clean-up loop removes the track: it is not active in this frame and
    its last observation is more than ten frames old. *)
Definition stale (frame_number : Z) (active_ids : list string)
    (light_id : string) (entry : option History) : bool :=
  negb (in_ids light_id active_ids)
  && match entry with
     | Some history =>
         match Deque.last history with
         | Some last_obs => 10 <? frame_number - o_frame last_obs
         | None => false
         end
     | None => false
     end.


(** The loop [for light in detected_lights] from a given pair of mappings. *)
Definition track_loop (maxlen : nat) (f : Z) (lights : list Light)
    (acc : PyDict.t History * PyDict.t Light) : PyDict.t History * PyDict.t Light :=
  fold_left (track_one maxlen f) lights acc.

(** An id that is active in this frame has its last observation in this
    frame. *)
Definition active_fresh (f : Z) (hist : PyDict.t History) (cur : PyDict.t Light) : Prop :=
  forall k h o,
    PyDict.mem k cur = true -> PyDict.get k hist = Some h ->
    Deque.last h = Some o -> o_frame o = f.

(** Every history holds at most [capacity] observations. *)
Definition histories_bounded (capacity : nat) (hist : PyDict.t History) : Prop :=
  forall light_id history,
    PyDict.get light_id hist = Some history -> (length history <= capacity)%nat.

(* ------------------------------------------------------------------ *)
(** ** Synthetic frames

    An instance of [OpenCV] for concrete runs: a frame is described by its
    channel count and by the bright blobs it shows.  Colour conversion
    accepts three- and four-channel arrays only; the mask operations keep
    the blobs; a region of interest selects the blob with that bounding
    box. *)

Record Blob : Type := mkBlob {
  blob_rect : Z * Z * Z * Z;
  blob_area : Q;
  blob_gray : Q
}.

Record Scene : Type := mkScene {
  channels : nat;
  blobs : list Blob
}.

Definition rect_eqb (a b : Z * Z * Z * Z) : bool :=
  let '(x, y, w, h) := a in
  let '(x', y', w', h') := b in
  (x =? x') && (y =? y') && (w =? w') && (h =? h').

Definition scene_convert (s : Scene) : result Scene :=
  if ((channels s =? 3) || (channels s =? 4))%nat then Ok s
  else Raise (cv2_error "Invalid number of channels in input image").

Definition SyntheticCV : OpenCV :=
  {| ndarray := Scene;
     contour := Blob;
     cvtColor_BGR2HSV := scene_convert;
     cvtColor_BGR2GRAY := scene_convert;
     inRange := fun s _ _ => s;
     bitwise_or := fun s _ => s;
     morphologyEx := fun s _ _ => s;
     findContours := blobs;
     contourArea := blob_area;
     boundingRect := blob_rect;
     roi_slice := fun s r =>
       {| channels := channels s;
          blobs := filter (fun b => rect_eqb (blob_rect b) r) (blobs s) |};
     np_mean_pixels := fun s =>
       match blobs s with
       | b :: _ => blob_gray b
       | [] => 0%Q
       end |}.

(** A 20x20 blob with top-left corner [(x, y)] and mean luma [gray]. *)
Definition square_blob (x y : Z) (gray : Q) : Blob :=
  {| blob_rect := (x, y, 20, 20); blob_area := 400; blob_gray := gray |}.

Definition bgr_frame (bs : list Blob) : Scene := {| channels := 3; blobs := bs |}.

(** A single-channel frame. *)
Definition gray_frame : Scene := {| channels := 1; blobs := [] |}.

(** The lamp at a fixed position, lit ([gray] 200) or dimmed ([gray] 160:
    still detected, below the on threshold). *)
Definition lamp_frame (lit : bool) : Scene :=
  bgr_frame [square_blob 100 100 (if lit then 200 else 160)%Q].

(** [cycles] cycles of ten lit frames followed by ten dimmed frames. *)
Fixpoint blink_10_10 (cycles : nat) : list Scene :=
  match cycles with
  | O => []
  | S c => repeat (lamp_frame true) 10 ++ repeat (lamp_frame false) 10 ++ blink_10_10 c
  end.

(** Two lamps in frame 1; the left one then disappears while the right one
    stays for frames 2 to 12; in frame 13 a third lamp appears far from
    both. *)
Definition left_lamp : Blob := square_blob 100 100 200.
Definition right_lamp : Blob := square_blob 400 100 200.
Definition third_lamp : Blob := square_blob 700 100 200.

Definition reuse_prefix : list Scene :=
  bgr_frame [left_lamp; right_lamp] :: repeat (bgr_frame [right_lamp]) 11.

Definition reuse_frame : Scene := bgr_frame [right_lamp; third_lamp].

(** The regions [detect_lights] reports for [reuse_frame]. *)
Definition right_light : Light :=
  {| bbox := (400, 100, 20, 20); center := (410, 110); area := 400;
     intensity := 200; id := 0 |}.
Definition third_light : Light :=
  {| bbox := (700, 100, 20, 20); center := (710, 110); area := 400;
     intensity := 200; id := 1 |}.

(** Two regions ten pixels apart. *)
Definition near_a : Light :=
  {| bbox := (90, 90, 20, 20); center := (100, 100); area := 400;
     intensity := 200; id := 0 |}.
Definition near_b : Light :=
  {| bbox := (100, 90, 20, 20); center := (110, 100); area := 400;
     intensity := 200; id := 1 |}.

(** A detector that saw one lamp in frame 1, and eleven later calls that
    detect nothing. *)
Definition seen_once : LightDetector := fst (track_lights (init 30) [near_a] 1).

Definition idle_calls : list (list Light * Z) :=
  map (fun i => ([], Z.of_nat i)) (seq 2 11).

(** The symbolic instance of [NumPy]: a value is the expression that
    computes it. *)
Inductive np_expr : Type :=
| E_mean (l : list Q)
| E_std (l : list Q)
| E_var (l : list Q)
| E_sqrt (e : np_expr)
| E_add (a b : np_expr)
| E_div (a b : Z)
| E_int (z : Z).

Definition SymbolicNumPy : NumPy :=
  {| float64 := np_expr;
     np_mean := E_mean;
     np_std := E_std;
     np_var := E_var;
     np_sqrt := E_sqrt;
     float_add := E_add;
     true_div := E_div;
     float_of_int := E_int |}.

(** A history of [n] observations of a steady lamp. *)
Definition steady_history (n : nat) : History :=
  map (fun i => {| o_center := (110, 110); o_intensity := 200;
                   o_frame := Z.of_nat i; o_on := true |}) (seq 1 n).

(* ------------------------------------------------------------------ *)
(** ** Callers of the pipeline *)

(** *** Display association: [process_video], [process_webcam] in
    [inference.py] (radius 30) and [LiveCameraDemo.run_demo] in
    [demo_live_camera.py] (radius 50) *)

Definition inference_radius : Z := 30.
Definition demo_radius : Z := 50.

(** [for light in lights: ... if dist < radius: tracked[light_id] = light;
    break], with [dist] compared on its square as in the tracker. *)
Definition first_within (radius : Z) (last_center : Z * Z) (lights : list Light)
    : option Light :=
  find (fun light => sq_distance (center light) last_center <? radius * radius)
       lights.

(** Body of [for light_id in classifications.keys()]. *)
Definition tracked_step (radius : Z) (detector : LightDetector)
    (lights : list Light) (tracked : PyDict.t Light) (light_id : string)
    : PyDict.t Light :=
  match PyDict.get light_id (light_history detector) with
  | None => tracked
  | Some history =>
      match Deque.last history with
      | None => tracked
      | Some last_obs =>
          match first_within radius (o_center last_obs) lights with
          | Some light => PyDict.set light_id light tracked
          | None => tracked
          end
      end
  end.

(** The [tracked] mapping built after [process_frame] returned
    [(lights, classifications)]. *)
Definition tracked_for_display (radius : Z) (detector : LightDetector)
    (lights : list Light) (classifications : PyDict.t label) : PyDict.t Light :=
  fold_left (tracked_step radius detector lights)
            (PyDict.keys classifications) PyDict.empty.

(** *** Summary counts of [draw_detections] and [add_demo_info] *)

Definition label_eqb (a b : label) : bool :=
  match a, b with
  | running_light, running_light => true
  | hazard_light, hazard_light => true
  | unknown, unknown => true
  | _, _ => false
  end.

(** [sum(1 for c in classifications.values() if c == 'running_light')] *)
Definition running_count (classifications : PyDict.t label) : nat :=
  length (filter (fun item => label_eqb (snd item) running_light) classifications).

(** [sum(1 for c in classifications.values() if c == 'hazard_light')] *)
Definition blinking_count (classifications : PyDict.t label) : nat :=
  length (filter (fun item => label_eqb (snd item) hazard_light) classifications).

(** [total_detected = len(tracked_lights)] *)
Definition total_detected (tracked_lights : PyDict.t Light) : nat :=
  PyDict.len tracked_lights.

(** *** [LightModelTrainer.extract_features] *)

(** The attributes of a [LightModelTrainer]. *)
Record LightModelTrainer (np : NumPy) : Type := mkLightModelTrainer {
  detector : LightDetector;
  features : list (list (float64 np));
  labels : list label
}.
Arguments detector {np} _.
Arguments features {np} _.
Arguments labels {np} _.

(** A [cv2.VideoCapture]: whether it opened, the frame count it reports,
    and the frames [read] will deliver. *)
Record VideoCapture (cv : OpenCV) : Type := mkVideoCapture {
  isOpened : bool;
  frame_total : Z;
  stream : list (ndarray cv)
}.
Arguments isOpened {cv} _.
Arguments frame_total {cv} _.
Arguments stream {cv} _.

(** What can escape [extract_features]. *)
Inductive trainer_exn : Type :=
| ZeroDivisionError
| DetectorError (e : exn).

(** [step = max(1, total_frames // frames_to_process)], where
    [frames_to_process = min(max_frames, total_frames)]; the floor division
    raises when the divisor is zero. *)
Definition sampling_step (max_frames total_frames : Z) : option Z :=
  let frames_to_process := Z.min max_frames total_frames in
  if frames_to_process =? 0 then None
  else Some (Z.max 1 (total_frames / frames_to_process)).

(** The [while frame_count < frames_to_process] loop, with [n] iterations
    left: read a frame (an exhausted stream ends the loop), skip
    [step - 1] frames, process the frame and collect the feature rows. *)
Fixpoint extract_loop (cv : OpenCV) (np : NumPy) (lbl : label) (step : nat)
    (n : nat) (self : LightModelTrainer np) (frames : list (ndarray cv))
    : LightModelTrainer np * option trainer_exn :=
  match n with
  | O => (self, None)
  | S n' =>
      match frames with
      | [] => (self, None)
      | frame :: rest =>
          let rest := skipn (step - 1) rest in
          let '(detector', r) := process_frame cv (detector self) frame in
          match r with
          | Raise e =>
              ({| detector := detector';
                  features := features self;
                  labels := labels self |},
               Some (DetectorError e))
          | Ok _ =>
              let '(features', labels') :=
                extract_features_loop np detector' lbl (features self, labels self) in
              extract_loop cv np lbl step n'
                {| detector := detector'; features := features'; labels := labels' |}
                rest
          end
      end
  end.

(** [extract_features(video_path, label, max_frames)] on the capture that
    [cv2.VideoCapture(video_path)] gives; the second component is the
    exception that escaped, if any. *)
Definition extract_features (cv : OpenCV) (np : NumPy)
    (self : LightModelTrainer np) (cap : VideoCapture cv) (lbl : label)
    (max_frames : Z) : LightModelTrainer np * option trainer_exn :=
  if negb (isOpened cap) then (self, None)
  else
    let total_frames := frame_total cap in
    let frames_to_process := Z.min max_frames total_frames in
    match sampling_step max_frames total_frames with
    | None => (self, Some ZeroDivisionError)
    | Some step =>
        extract_loop cv np lbl (Z.to_nat step) (Z.to_nat frames_to_process)
          self (stream cap)
    end.

(** [LightModelTrainer.__init__] *)
Definition new_trainer (np : NumPy) : LightModelTrainer np :=
  {| detector := init default_frame_buffer_size; features := []; labels := [] |}.

(* ------------------------------------------------------------------ *)
(** ** Further predicates *)

(** Squared distance from a point to the last centre of a track, if the
    track has an observation. *)
Definition track_distance (c : Z * Z) (history : History) : option Z :=
  option_map (fun last_obs => sq_distance c (o_center last_obs)) (Deque.last history).

(** What the search loop holds after the entries [processed]: either no
    entry is inside the gate, or the accumulator names an entry inside the
    gate whose distance no entry beats. *)
Definition closest_ok (c : Z * Z) (processed : PyDict.t History)
    (acc : option string * option Z) : Prop :=
  match acc with
  | (None, None) =>
      forall k h d, In (k, h) processed -> track_distance c h = Some d -> 2500 <= d
  | (Some k, Some m) =>
      m < 2500
      /\ (exists h, In (k, h) processed /\ track_distance c h = Some m)
      /\ (forall k' h' d,
            In (k', h') processed -> track_distance c h' = Some d -> m <= d)
  | _ => False
  end.

(** Every id that is active in this frame is live and its last observation
    records one of the regions [lights] at frame [f]. *)
Definition active_recorded (f : Z) (lights : list Light)
    (hist : PyDict.t History) (cur : PyDict.t Light) : Prop :=
  forall k,
    PyDict.mem k cur = true ->
    exists h light,
      PyDict.get k hist = Some h /\ In light lights
      /\ Deque.last h = Some (make_observation light f).

(** Every observation of every history satisfies [P]. *)
Definition all_observations (P : Observation -> Prop) (hist : PyDict.t History) : Prop :=
  forall light_id history obs,
    PyDict.get light_id hist = Some history -> In obs history -> P obs.

(** No live track has an empty history. *)
Definition histories_nonempty (hist : PyDict.t History) : Prop :=
  forall light_id history,
    PyDict.get light_id hist = Some history -> history <> [].

(** The frame numbers of a history never decrease. *)
Fixpoint nondecreasing (fs : list Z) : Prop :=
  match fs with
  | a :: (b :: _) as rest => a <= b /\ nondecreasing rest
  | _ => True
  end.

(** What [detect_lights] guarantees of a region it reports. *)
Definition plausible_light (light : Light) : Prop :=
  let '(x, y, w, h) := bbox light in
  (100 < area light)%Q /\ (area light < 50000)%Q
  /\ 0 < h
  /\ (1 # 2 < inject_Z w / inject_Z h)%Q /\ (inject_Z w / inject_Z h < 3)%Q
  /\ (150 < intensity light)%Q
  /\ center light = (x + w / 2, y + h / 2).

(** What the detection loop keeps: every reported region passed the
    filters, and its ['id'] is its position in the list. *)
Definition detected_ok (lights : list Light) : Prop :=
  Forall plausible_light lights
  /\ forall i light, nth_error lights i = Some light -> id light = i.

(** An observation as the pipeline records it at or before frame [f]. *)
Definition recorded_observation (f : Z) (obs : Observation) : Prop :=
  (150 < o_intensity obs)%Q
  /\ o_on obs = Qltb 180 (o_intensity obs)
  /\ 1 <= o_frame obs <= f.

(** Further concrete inputs. *)
Definition two_lamp_frame : Scene := bgr_frame [left_lamp; right_lamp].

(** The regions [detect_lights] reports for [two_lamp_frame]. *)
Definition two_lamp_lights : list Light :=
  [ {| bbox := (100, 100, 20, 20); center := (110, 110); area := 400;
       intensity := 200; id := 0 |};
    {| bbox := (400, 100, 20, 20); center := (410, 110); area := 400;
       intensity := 200; id := 1 |} ].

Definition short_video : VideoCapture SyntheticCV :=
  mkVideoCapture SyntheticCV true 60 (blink_10_10 3).

(** Two tracks whose last centres are equally far from [(110, 100)]. *)
Definition tie_history : PyDict.t History :=
  [("light_0"%string, [make_observation near_a 1]);
   ("light_1"%string,
    [{| o_center := (120, 100); o_intensity := 200; o_frame := 1; o_on := true |}])].

(** The region [detect_lights] reports for [lamp_frame lit]. *)
Definition lamp_light (lit : bool) : Light :=
  {| bbox := (100, 100, 20, 20); center := (110, 110); area := 400;
     intensity := (if lit then 200 else 160)%Q; id := 0 |}.

(** Nine frames of the steady right lamp; a tenth such frame completes the
    ten observations the classifier needs. *)
Definition steady_prefix : list Scene := repeat (bgr_frame [right_lamp]) 9.

Definition tiny_video : VideoCapture SyntheticCV :=
  mkVideoCapture SyntheticCV true 3
    [lamp_frame true; lamp_frame false; lamp_frame true].

Definition empty_video : VideoCapture SyntheticCV :=
  mkVideoCapture SyntheticCV true 0 [].

(* ================================================================== *)
(** * Properties *)

(** ** Dictionaries and deques *)

Section DictFacts.
Context {V : Type}.
Implicit Types (d : PyDict.t V) (k : string) (v : V).

Lemma get_set d k k' v :
  PyDict.get k (PyDict.set k' v d)
  = if String.eqb k k' then Some v else PyDict.get k d.
Proof.
  induction d as [|[k0 v0] d IH]; simpl.
  - destruct (String.eqb k k'); reflexivity.
  - destruct (String.eqb_spec k' k0) as [->|Hne]; simpl.
    + destruct (String.eqb k k0); reflexivity.
    + rewrite IH. destruct (String.eqb_spec k k0) as [->|Hne'].
      * destruct (String.eqb_spec k0 k'); [congruence|reflexivity].
      * reflexivity.
Qed.

Lemma get_set_same d k v : PyDict.get k (PyDict.set k v d) = Some v.
Proof. rewrite get_set, String.eqb_refl. reflexivity. Qed.

Lemma get_set_other d k k' v :
  k <> k' -> PyDict.get k (PyDict.set k' v d) = PyDict.get k d.
Proof.
  intros Hne. rewrite get_set.
  destruct (String.eqb_spec k k'); [contradiction|reflexivity].
Qed.

Lemma get_del d k k' :
  PyDict.get k (PyDict.del k' d)
  = if String.eqb k k' then None else PyDict.get k d.
Proof.
  induction d as [|[k0 v0] d IH]; simpl.
  - destruct (String.eqb k k'); reflexivity.
  - destruct (String.eqb_spec k' k0) as [->|Hne]; simpl.
    + rewrite IH. destruct (String.eqb k k0); reflexivity.
    + rewrite IH. destruct (String.eqb_spec k k0) as [->|Hne'].
      * destruct (String.eqb_spec k0 k'); [congruence|reflexivity].
      * reflexivity.
Qed.

Lemma get_In d k v : PyDict.get k d = Some v -> In (k, v) d.
Proof.
  induction d as [|[k0 v0] d IH]; simpl; [discriminate|].
  destruct (String.eqb_spec k k0) as [->|Hne].
  - intros [= ->]. now left.
  - intros H. right. now apply IH.
Qed.

Lemma In_get d k v : In (k, v) d -> exists v', PyDict.get k d = Some v'.
Proof.
  induction d as [|[k0 v0] d IH]; simpl; [contradiction|].
  intros [[= -> ->]|Hin].
  - rewrite String.eqb_refl. eauto.
  - destruct (String.eqb k k0); eauto.
Qed.

Lemma in_ids_keys d k : in_ids k (PyDict.keys d) = PyDict.mem k d.
Proof.
  unfold PyDict.mem.
  induction d as [|[k0 v0] d IH]; simpl; [reflexivity|].
  destruct (String.eqb k k0); [reflexivity|exact IH].
Qed.

Lemma mem_set d k k' v :
  PyDict.mem k (PyDict.set k' v d) = String.eqb k k' || PyDict.mem k d.
Proof.
  unfold PyDict.mem. rewrite get_set.
  destruct (String.eqb k k'); reflexivity.
Qed.

Lemma get_some_in_keys d k v :
  PyDict.get k d = Some v -> in_ids k (PyDict.keys d) = true.
Proof.
  intros H. rewrite in_ids_keys. unfold PyDict.mem. now rewrite H.
Qed.

End DictFacts.

Section DequeFacts.
Context {A : Type}.
Implicit Types (dq : list A) (x : A).

Lemma last_snoc dq x : Deque.last (dq ++ [x]) = Some x.
Proof.
  induction dq as [|a dq IH]; simpl; [reflexivity|].
  destruct (dq ++ [x]) eqn:E; [destruct dq; discriminate|exact IH].
Qed.

Lemma append_length maxlen dq x :
  (length dq <= maxlen)%nat -> (length (Deque.append maxlen dq x) <= maxlen)%nat.
Proof.
  intros Hle. unfold Deque.append.
  destruct (Nat.ltb_spec maxlen (length (dq ++ [x]))) as [Hlt|Hge].
  - destruct dq as [|a dq]; simpl in *; [lia|].
    rewrite length_app in *. simpl in *. lia.
  - exact Hge.
Qed.

Lemma append_last_or_empty maxlen dq x :
  Deque.append maxlen dq x = [] \/ Deque.last (Deque.append maxlen dq x) = Some x.
Proof.
  unfold Deque.append.
  destruct (maxlen <? length (dq ++ [x]))%nat.
  - destruct dq as [|a dq]; simpl; [now left|right; apply last_snoc].
  - right. apply last_snoc.
Qed.

Lemma append_last maxlen dq x :
  (0 < maxlen)%nat -> Deque.last (Deque.append maxlen dq x) = Some x.
Proof.
  intros Hpos. unfold Deque.append.
  destruct (Nat.ltb_spec maxlen (length (dq ++ [x]))) as [Hlt|Hge].
  - destruct dq as [|a dq]; simpl in *; [lia|apply last_snoc].
  - apply last_snoc.
Qed.

Lemma append_full a dq x :
  Deque.append (length (a :: dq)) (a :: dq) x = dq ++ [x].
Proof.
  unfold Deque.append.
  destruct (Nat.ltb_spec (length (a :: dq)) (length ((a :: dq) ++ [x]))) as [Hlt|Hge].
  - reflexivity.
  - simpl in Hge. rewrite length_app in Hge. simpl in Hge. lia.
Qed.

Lemma append_In maxlen dq x o :
  In o (Deque.append maxlen dq x) -> In o dq \/ o = x.
Proof.
  unfold Deque.append.
  assert (Hsnoc : In o (dq ++ [x]) -> In o dq \/ o = x).
  { intros H. apply in_app_or in H. destruct H as [H|[H|[]]]; auto. }
  destruct (maxlen <? length (dq ++ [x]))%nat; [|exact Hsnoc].
  intros H. apply Hsnoc. destruct (dq ++ [x]); [contradiction|now right].
Qed.

End DequeFacts.

(** ** One region of [track_lights] *)

Lemma closest_fold_key c hist acc k :
  fst (fold_left (closest_step c) hist acc) = Some k ->
  fst acc = Some k \/ exists h, In (k, h) hist.
Proof.
  revert acc. induction hist as [|[k0 h0] hist IH]; intros acc H; simpl in *.
  - now left.
  - apply IH in H. destruct H as [H|[h Hin]].
    + unfold closest_step in H.
      destruct (Deque.last h0) as [o|]; [|now left].
      cbv zeta in H.
      match type of H with context [if ?b then _ else _] => destruct b end.
      * simpl in H. injection H as <-. right. exists h0. now left.
      * now left.
    + right. exists h. now right.
Qed.

Lemma find_closest_live c hist k :
  find_closest c hist = Some k -> exists h, PyDict.get k hist = Some h.
Proof.
  unfold find_closest. intros H.
  apply closest_fold_key in H. destruct H as [H|[h Hin]]; [discriminate|].
  eapply In_get; eassumption.
Qed.

(** What one region does to the two mappings: it picks one id [k], appends
    its observation to the deque of [k] (the existing one, or a new empty
    one) and leaves every other id alone. *)
Lemma track_one_spec maxlen f hist cur light :
  exists k dq,
    track_one maxlen f (hist, cur) light
    = (PyDict.set k (Deque.append maxlen dq (make_observation light f))
         (snd (assign_id hist light)),
       PyDict.set k light cur)
    /\ fst (assign_id hist light) = k
    /\ PyDict.get k (snd (assign_id hist light)) = Some dq
    /\ (forall k', k' <> k ->
          PyDict.get k' (snd (assign_id hist light)) = PyDict.get k' hist)
    /\ (dq = [] \/ PyDict.get k hist = Some dq).
Proof.
  unfold track_one, assign_id, append_observation.
  destruct (find_closest (center light) hist) as [k|] eqn:E.
  - destruct (find_closest_live _ _ _ E) as [h Hh]. simpl.
    exists k, h. rewrite Hh. repeat split; auto.
  - simpl. exists (new_light_id hist), []. rewrite get_set_same.
    repeat split; auto using get_set_same.
    intros k' Hne. now apply get_set_other.
Qed.

Lemma track_one_get maxlen f hist cur light :
  exists k dq,
    snd (track_one maxlen f (hist, cur) light) = PyDict.set k light cur
    /\ fst (assign_id hist light) = k
    /\ PyDict.get k (fst (track_one maxlen f (hist, cur) light))
       = Some (Deque.append maxlen dq (make_observation light f))
    /\ (forall k', k' <> k ->
          PyDict.get k' (fst (track_one maxlen f (hist, cur) light))
          = PyDict.get k' hist)
    /\ (dq = [] \/ PyDict.get k hist = Some dq).
Proof.
  destruct (track_one_spec maxlen f hist cur light)
    as (k & dq & Heq & Hk & Hget & Hother & Hdq).
  exists k, dq. rewrite Heq. simpl. repeat split; auto.
  - apply get_set_same.
  - intros k' Hne. rewrite get_set_other by assumption. now apply Hother.
Qed.

#[local] Arguments track_one : simpl never.

(** ** The clean-up loop *)

Lemma cleanup_step_get f act d k k' :
  PyDict.get k (cleanup_step f act d k')
  = if String.eqb k k' && stale f act k' (PyDict.get k' d)
    then None else PyDict.get k d.
Proof.
  unfold cleanup_step, stale.
  destruct (in_ids k' act); simpl.
  - now rewrite andb_false_r.
  - destruct (PyDict.get k' d) as [h|] eqn:Eh; [|now rewrite andb_false_r].
    destruct (Deque.last h) as [o|]; [|now rewrite andb_false_r].
    destruct (10 <? f - o_frame o).
    + rewrite get_del, andb_true_r. reflexivity.
    + now rewrite andb_false_r.
Qed.

Lemma stale_none f act k : stale f act k None = false.
Proof. unfold stale. apply andb_false_r. Qed.

Lemma cleanup_fold_get f act ks d k :
  PyDict.get k (fold_left (cleanup_step f act) ks d)
  = if in_ids k ks && stale f act k (PyDict.get k d)
    then None else PyDict.get k d.
Proof.
  revert d. induction ks as [|k' ks IH]; intros d; simpl; [reflexivity|].
  rewrite IH, cleanup_step_get.
  destruct (String.eqb_spec k k') as [->|Hne]; simpl.
  - destruct (stale f act k' (PyDict.get k' d)) eqn:Es.
    + rewrite stale_none, andb_false_r. reflexivity.
    + rewrite Es, andb_false_r. reflexivity.
  - reflexivity.
Qed.

Lemma cleanup_get f act d k :
  PyDict.get k (cleanup f act d)
  = if stale f act k (PyDict.get k d) then None else PyDict.get k d.
Proof.
  unfold cleanup. rewrite cleanup_fold_get.
  destruct (PyDict.get k d) as [h|] eqn:Eh.
  - now rewrite (get_some_in_keys _ _ _ Eh).
  - rewrite stale_none, andb_false_r. reflexivity.
Qed.

Lemma cleanup_get_some f act d k h :
  PyDict.get k (cleanup f act d) = Some h ->
  PyDict.get k d = Some h /\ stale f act k (Some h) = false.
Proof.
  rewrite cleanup_get.
  destruct (stale f act k (PyDict.get k d)) eqn:Es; [discriminate|].
  intros H. rewrite H in Es. auto.
Qed.

(** ** The loop over the regions of one frame *)

Lemma track_lights_unfold self lights f :
  track_lights self lights f
  = (let r := track_loop (frame_buffer_size self) f lights
                (light_history self, PyDict.empty) in
     ({| frame_buffer_size := frame_buffer_size self;
         light_history := cleanup f (PyDict.keys (snd r)) (fst r);
         frame_count := frame_count self |}, snd r)).
Proof.
  unfold track_lights, track_loop.
  destruct (fold_left _ _ _) as [hist cur]. reflexivity.
Qed.

Lemma track_loop_bounded maxlen f lights hist cur :
  histories_bounded maxlen hist ->
  histories_bounded maxlen (fst (track_loop maxlen f lights (hist, cur))).
Proof.
  unfold track_loop. revert hist cur.
  induction lights as [|light lights IH]; intros hist cur Hb; simpl; [exact Hb|].
  destruct (track_one_get maxlen f hist cur light)
    as (k & dq & Hcur & _ & Hk & Hother & Hdq).
  destruct (track_one maxlen f (hist, cur) light) as [hist' cur'] eqn:E.
  simpl in *. apply IH. intros k' h' Hget.
  destruct (String.eqb_spec k' k) as [->|Hne].
  - rewrite Hk in Hget. injection Hget as <-. apply append_length.
    destruct Hdq as [->|Hdq]; [simpl; lia|]. eapply Hb; eassumption.
  - rewrite Hother in Hget by assumption. eapply Hb; eassumption.
Qed.

Lemma track_loop_active_fresh maxlen f lights hist cur :
  active_fresh f hist cur ->
  active_fresh f (fst (track_loop maxlen f lights (hist, cur)))
                 (snd (track_loop maxlen f lights (hist, cur))).
Proof.
  unfold track_loop. revert hist cur.
  induction lights as [|light lights IH]; intros hist cur Hinv; simpl; [exact Hinv|].
  destruct (track_one_get maxlen f hist cur light)
    as (k & dq & Hcur & _ & Hk & Hother & Hdq).
  destruct (track_one maxlen f (hist, cur) light) as [hist' cur'] eqn:E.
  simpl in *. apply IH. intros k' h' o Hmem Hget Hlast. subst cur'.
  rewrite mem_set in Hmem.
  destruct (String.eqb_spec k' k) as [->|Hne].
  - rewrite Hk in Hget. injection Hget as <-.
    destruct (append_last_or_empty maxlen dq (make_observation light f)) as [Hnil|Hl].
    + rewrite Hnil in Hlast. discriminate.
    + rewrite Hl in Hlast. injection Hlast as <-. reflexivity.
  - simpl in Hmem. rewrite Hother in Hget by assumption.
    eapply Hinv; eassumption.
Qed.

(** An id that is not active after the loop kept its history. *)
Lemma track_loop_untouched maxlen f lights hist cur k :
  PyDict.mem k (snd (track_loop maxlen f lights (hist, cur))) = false ->
  PyDict.get k (fst (track_loop maxlen f lights (hist, cur))) = PyDict.get k hist.
Proof.
  unfold track_loop. revert hist cur.
  induction lights as [|light lights IH]; intros hist cur Hmem; simpl in *; [reflexivity|].
  destruct (track_one_get maxlen f hist cur light)
    as (k0 & dq & Hcur & _ & Hk & Hother & Hdq).
  destruct (track_one maxlen f (hist, cur) light) as [hist' cur'] eqn:E.
  simpl in *. subst cur'.
  assert (Hgrow : forall ls h c,
             PyDict.mem k (snd (fold_left (track_one maxlen f) ls (h, c))) = false ->
             PyDict.mem k c = false).
  { induction ls as [|l ls IHls]; intros h c Hm; simpl in *; [exact Hm|].
    destruct (track_one_get maxlen f h c l) as (k1 & dq1 & Hc1 & _).
    destruct (track_one maxlen f (h, c) l) as [h1 c1]. simpl in *. subst c1.
    apply IHls in Hm. rewrite mem_set in Hm.
    now apply orb_false_elim in Hm. }
  rewrite (IH _ _ Hmem). apply Hgrow in Hmem. rewrite mem_set in Hmem.
  apply orb_false_elim in Hmem. destruct Hmem as [Hne _].
  apply Hother. intros ->. rewrite String.eqb_refl in Hne. discriminate.
Qed.

(** ** One call of [track_lights] *)

Lemma track_lights_buffer_size self lights f :
  frame_buffer_size (fst (track_lights self lights f)) = frame_buffer_size self.
Proof. rewrite track_lights_unfold. reflexivity. Qed.

Lemma track_lights_bounded self lights f :
  histories_bounded (frame_buffer_size self) (light_history self) ->
  histories_bounded (frame_buffer_size self)
    (light_history (fst (track_lights self lights f))).
Proof.
  intros Hb. rewrite track_lights_unfold. cbn [fst light_history].
  intros k h Hget. apply cleanup_get_some in Hget. destruct Hget as [Hget _].
  eapply track_loop_bounded; eassumption.
Qed.

(** After a call at frame [f], no live track is more than ten frames old. *)
Lemma track_lights_age self lights f k h o :
  PyDict.get k (light_history (fst (track_lights self lights f))) = Some h ->
  Deque.last h = Some o ->
  f - o_frame o <= 10.
Proof.
  rewrite track_lights_unfold. cbn [fst light_history].
  intros Hget Hlast. apply cleanup_get_some in Hget. destruct Hget as [Hget Hs].
  unfold stale in Hs. rewrite Hlast in Hs.
  apply andb_false_iff in Hs. destruct Hs as [Hact|Hage].
  - apply negb_false_iff in Hact. rewrite in_ids_keys in Hact.
    assert (Hf : o_frame o = f).
    { eapply (track_loop_active_fresh (frame_buffer_size self) f lights);
        [|eassumption..].
      intros k' h' o' Hm. discriminate. }
    lia.
  - apply Z.ltb_ge in Hage. exact Hage.
Qed.

(** A track that is not active in a call keeps its history, unless the call
    evicts it. *)
Lemma track_lights_inactive self lights f k :
  PyDict.mem k (snd (track_lights self lights f)) = false ->
  PyDict.get k (light_history (fst (track_lights self lights f)))
  = if stale f [] k (PyDict.get k (light_history self))
    then None else PyDict.get k (light_history self).
Proof.
  rewrite track_lights_unfold. cbn [fst snd light_history]. intros Hmem.
  rewrite cleanup_get, (track_loop_untouched _ _ _ _ _ _ Hmem).
  unfold stale. rewrite in_ids_keys, Hmem. reflexivity.
Qed.

(** ** Sequences of calls *)

Lemma run_calls_cons self call calls :
  run_calls self (call :: calls)
  = run_calls (fst (track_lights self (fst call) (snd call))) calls.
Proof. reflexivity. Qed.

Lemma unobserved_cons k self lights f calls :
  unobserved k self ((lights, f) :: calls) = true ->
  PyDict.mem k (snd (track_lights self lights f)) = false
  /\ unobserved k (fst (track_lights self lights f)) calls = true.
Proof.
  simpl. destruct (track_lights self lights f) as [self' cur]. simpl.
  intros H. apply andb_true_iff in H. destruct H as [H1 H2].
  apply negb_true_iff in H1. auto.
Qed.

Lemma unobserved_stays_absent calls : forall self k,
  PyDict.get k (light_history self) = None ->
  unobserved k self calls = true ->
  PyDict.get k (light_history (run_calls self calls)) = None.
Proof.
  induction calls as [|[lights f] calls IH]; intros self k Hnone Hun; [exact Hnone|].
  apply unobserved_cons in Hun. destruct Hun as [Hmem Hun].
  rewrite run_calls_cons. apply IH; [|exact Hun].
  cbn [fst snd]. rewrite (track_lights_inactive _ _ _ _ Hmem), Hnone, stale_none.
  reflexivity.
Qed.

Lemma unobserved_evicted calls : forall self k h o fprev,
  PyDict.get k (light_history self) = Some h ->
  Deque.last h = Some o ->
  unobserved k self calls = true ->
  increasing_from fprev (map snd calls) = true ->
  (1 <= length calls)%nat ->
  o_frame o + 11 <= fprev + Z.of_nat (length calls) ->
  PyDict.get k (light_history (run_calls self calls)) = None.
Proof.
  induction calls as [|[lights f] calls IH];
    intros self k h o fprev Hget Hlast Hun Hinc Hlen Hfar; [simpl in Hlen; lia|].
  apply unobserved_cons in Hun. destruct Hun as [Hmem Hun].
  simpl in Hinc. apply andb_true_iff in Hinc. destruct Hinc as [Hlt Hinc].
  apply Z.ltb_lt in Hlt.
  rewrite run_calls_cons. cbn [fst snd].
  pose proof (track_lights_inactive _ _ _ _ Hmem) as Hstep.
  rewrite Hget in Hstep. unfold stale in Hstep. rewrite Hlast in Hstep.
  simpl in Hstep.
  destruct (Z.ltb_spec 10 (f - o_frame o)) as [Hold|Hyoung].
  - apply unobserved_stays_absent; assumption.
  - simpl length in Hfar.
    apply (IH _ k h o f); try assumption.
    + destruct calls; simpl in *; lia.
    + lia.
Qed.

(** ** [process_frame] *)

Lemma process_frame_state cv self frame :
  fst (process_frame cv self frame)
  = match detect_lights cv frame with
    | Raise _ => with_frame_count self (frame_count self + 1)
    | Ok detected_lights =>
        fst (track_lights (with_frame_count self (frame_count self + 1))
               detected_lights (frame_count self + 1))
    end.
Proof.
  unfold process_frame. destruct (detect_lights cv frame) as [l|e]; [|reflexivity].
  cbn [frame_count with_frame_count].
  destruct (track_lights _ l _) as [self' cur]. reflexivity.
Qed.

Lemma process_frame_bounded cv self frame capacity :
  frame_buffer_size self = capacity ->
  histories_bounded capacity (light_history self) ->
  frame_buffer_size (fst (process_frame cv self frame)) = capacity
  /\ histories_bounded capacity (light_history (fst (process_frame cv self frame))).
Proof.
  intros Hcap Hb. rewrite process_frame_state.
  destruct (detect_lights cv frame) as [l|e].
  - split.
    + rewrite track_lights_buffer_size. exact Hcap.
    + rewrite <- Hcap.
      apply (track_lights_bounded (with_frame_count self (frame_count self + 1))).
      cbn [with_frame_count frame_buffer_size light_history]. now rewrite Hcap.
  - split; assumption.
Qed.

Lemma run_frames_bounded cv frames : forall self capacity,
  frame_buffer_size self = capacity ->
  histories_bounded capacity (light_history self) ->
  histories_bounded capacity (light_history (run_frames cv self frames)).
Proof.
  induction frames as [|frame frames IH]; intros self capacity Hcap Hb; [exact Hb|].
  destruct (process_frame_bounded cv self frame capacity Hcap Hb) as [Hcap' Hb'].
  apply (IH (fst (process_frame cv self frame)) capacity Hcap' Hb').
Qed.

(** ** Transitions and runs *)

Lemma flip_at_shift a states i :
  (1 <= i)%nat -> flip_at (a :: states) (S i) = flip_at states i.
Proof.
  intros Hi. unfold flip_at. destruct i as [|j]; [lia|].
  replace (S (S j) - 1)%nat with (S j) by lia.
  replace (S j - 1)%nat with j by lia.
  reflexivity.
Qed.

Lemma count_flips_shift a states (idx : list nat) :
  (forall i, In i idx -> (1 <= i)%nat) ->
  length (filter (flip_at (a :: states)) (map S idx))
  = length (filter (flip_at states) idx).
Proof.
  induction idx as [|i idx IH]; intros Hpos; [reflexivity|].
  cbn [map filter]. rewrite flip_at_shift by (apply Hpos; now left).
  assert (Hrest : forall j, In j idx -> (1 <= j)%nat)
    by (intros j Hj; apply Hpos; now right).
  destruct (flip_at states i); cbn [length]; rewrite IH; auto.
Qed.

Lemma transitions_cons a b rest :
  transitions (a :: b :: rest)
  = ((if xorb a b then 1 else 0) + transitions (b :: rest))%nat.
Proof.
  unfold transitions. cbn [length]. rewrite !Nat.sub_succ, !Nat.sub_0_r.
  cbn [seq filter]. rewrite <- seq_shift.
  assert (Hshift := count_flips_shift a (b :: rest) (seq 1 (length rest))).
  rewrite <- Hshift by (intros i Hi; apply in_seq in Hi; lia).
  unfold flip_at at 1. cbn [nth Nat.sub].
  destruct a, b; reflexivity.
Qed.

Lemma transitions_spec states : transitions states = spec_transitions states.
Proof.
  induction states as [|a [|b rest] IH]; try reflexivity.
  rewrite transitions_cons, IH. reflexivity.
Qed.

Lemma spec_runs_cons s rest :
  spec_runs (s :: rest) = extend_run s 1 (spec_runs rest).
Proof. reflexivity. Qed.

Lemma extend_run_extend s n m runs :
  extend_run s n (extend_run s m runs) = extend_run s (n + m) runs.
Proof.
  destruct runs as [|[s' k] runs]; simpl.
  - now rewrite Bool.eqb_reflx.
  - destruct (Bool.eqb s s') eqn:E; simpl.
    + now rewrite Bool.eqb_reflx, Nat.add_assoc.
    + now rewrite Bool.eqb_reflx.
Qed.

Lemma extend_run_head s n runs :
  exists k tail, extend_run s n runs = (s, k) :: tail.
Proof.
  destruct runs as [|[s' m] runs]; simpl; eauto.
  destruct (Bool.eqb s s'); eauto.
Qed.

Lemma extend_run_other s s' n runs :
  Bool.eqb s s' = false ->
  extend_run s n (extend_run s' 1 runs) = (s, n) :: extend_run s' 1 runs.
Proof.
  intros Hne. destruct (extend_run_head s' 1 runs) as (k & tail & ->).
  simpl. now rewrite Hne.
Qed.

Lemma run_lengths_cons b s n runs :
  run_lengths b ((s, n) :: runs)
  = (if Bool.eqb s b then [n] else []) ++ run_lengths b runs.
Proof.
  unfold run_lengths. simpl. destruct (Bool.eqb s b); reflexivity.
Qed.

(** The loop state [r] followed by the remaining states [rest] yields the
    runs of [current_duration r] copies of [current_state r] followed by
    [rest]. *)
Lemma run_loop_spec rest : forall r,
  close_run (fold_left run_step rest r)
  = (on_periods r
       ++ run_lengths true
            (extend_run (current_state r) (current_duration r) (spec_runs rest)),
     off_periods r
       ++ run_lengths false
            (extend_run (current_state r) (current_duration r) (spec_runs rest))).
Proof.
  induction rest as [|s rest IH]; intros [cs cd ons offs].
  - unfold close_run, run_lengths. simpl. destruct cs; simpl; now rewrite app_nil_r.
  - cbn [fold_left]. rewrite IH, spec_runs_cons. unfold run_step.
    cbn [current_state current_duration on_periods off_periods].
    destruct (Bool.eqb s cs) eqn:E.
    + apply Bool.eqb_prop in E. subst s.
      cbn [current_state current_duration on_periods off_periods].
      rewrite extend_run_extend, Nat.add_1_r. reflexivity.
    + cbn [current_state current_duration on_periods off_periods].
      rewrite (extend_run_other cs s cd) by (destruct cs, s; auto).
      rewrite !run_lengths_cons. unfold close_run.
      cbn [current_state current_duration on_periods off_periods].
      destruct cs; cbn [fst snd Bool.eqb]; rewrite <- ?app_assoc; reflexivity.
Qed.

Lemma run_lengths_on runs :
  run_lengths true runs = map snd (filter (fun r => fst r) runs).
Proof.
  unfold run_lengths. apply (f_equal (map snd)).
  apply filter_ext. intros [[|] n]; reflexivity.
Qed.

Lemma run_lengths_off runs :
  run_lengths false runs = map snd (filter (fun r => negb (fst r)) runs).
Proof.
  unfold run_lengths. apply (f_equal (map snd)).
  apply filter_ext. intros [[|] n]; reflexivity.
Qed.

Lemma periods_spec states :
  periods states = (spec_on_periods states, spec_off_periods states).
Proof.
  destruct states as [|s0 rest]; [reflexivity|].
  unfold periods. rewrite run_loop_spec.
  cbn [current_state current_duration on_periods off_periods app].
  rewrite <- spec_runs_cons, run_lengths_on, run_lengths_off. reflexivity.
Qed.

Lemma avg_period_spec ps : avg_period ps = spec_mean ps.
Proof. destruct ps; reflexivity. Qed.

Lemma classify_states_spec states : classify_states states = spec_rule states.
Proof.
  unfold classify_states, spec_rule, strictly_inside.
  rewrite periods_spec, transitions_spec. cbv beta iota zeta.
  rewrite (avg_period_spec (spec_on_periods states)).
  rewrite (avg_period_spec (spec_off_periods states)).
  destruct (length states <? 10)%nat; [reflexivity|].
  destruct (spec_transitions states =? 0)%nat; [reflexivity|].
  destruct (3 <? spec_transitions states)%nat;
    destruct (xlt (Fin 5) (spec_mean (spec_on_periods states)));
    destruct (xlt (spec_mean (spec_on_periods states)) (Fin 30));
    destruct (xlt (Fin 5) (spec_mean (spec_off_periods states)));
    destruct (xlt (spec_mean (spec_off_periods states)) (Fin 30));
    reflexivity.
Qed.

(** A flip needs both values, and each value that occurs has a run. *)
Lemma flip_has_both states :
  (1 <= spec_transitions states)%nat -> In true states /\ In false states.
Proof.
  induction states as [|a [|b rest] IH]; simpl; try lia.
  intros H. destruct (xorb a b) eqn:E.
  - destruct a, b; try discriminate; simpl; auto.
  - simpl in H. destruct (IH H) as [Ht Hf]. split; right; assumption.
Qed.

Lemma extend_run_lengths_in b s n runs :
  (s = b \/ run_lengths b runs <> []) ->
  run_lengths b (extend_run s n runs) <> [].
Proof.
  intros H. destruct runs as [|[s' m] runs]; simpl.
  - destruct H as [->|H]; [|now elim H].
    rewrite run_lengths_cons, Bool.eqb_reflx. discriminate.
  - destruct (Bool.eqb s s') eqn:E.
    + apply Bool.eqb_prop in E. subst s'.
      rewrite run_lengths_cons in *.
      destruct (Bool.eqb s b) eqn:Eb; [discriminate|].
      destruct H as [->|H]; [now rewrite Bool.eqb_reflx in Eb|exact H].
    + rewrite run_lengths_cons.
      destruct H as [->|H]; [rewrite Bool.eqb_reflx; discriminate|].
      destruct (Bool.eqb s b); [discriminate|exact H].
Qed.

Lemma value_has_run b states :
  In b states -> run_lengths b (spec_runs states) <> [].
Proof.
  induction states as [|s rest IH]; [contradiction|].
  intros [->|Hin]; rewrite spec_runs_cons; apply extend_run_lengths_in; auto.
Qed.

(** ** The regions of one invocation and the ids they are assigned *)








(* ================================================================== *)
(** * The claims *)

(** C10. [classify_light_type] called with an id that is not a live track
    returns [unknown]; it is a total function and raises nothing. *)
Theorem classify_light_type_unknown_id (self : LightDetector) (light_id : string) :
  live self light_id = false ->
  classify_light_type self light_id = unknown.
Proof.
  unfold live, PyDict.mem, classify_light_type.
  destruct (PyDict.get light_id (light_history self)); [discriminate|reflexivity].
Qed.

Lemma classify_light_type_unknown_id_witness :
  live seen_once "light_7" = false
  /\ classify_light_type seen_once "light_7" = unknown.
Proof.
  split; [reflexivity|].
  apply (classify_light_type_unknown_id seen_once "light_7"). reflexivity.
Defined.

(** C8. Whatever frames are processed from a fresh detector of capacity
    [capacity] (30 by default), every live track holds at most [capacity]
    observations; and a region matched to a track appends its observation
    at the right end, dropping the oldest observation when the history is
    full. *)
Theorem history_bounded_fifo :
  (forall (cv : OpenCV) (capacity : nat) (frames : list (ndarray cv)),
     histories_bounded capacity
       (light_history (run_frames cv (init capacity) frames)))
  /\
  (forall maxlen f hist cur light light_id oldest rest,
     find_closest (center light) hist = Some light_id ->
     PyDict.get light_id hist = Some (oldest :: rest) ->
     length (oldest :: rest) = maxlen ->
     PyDict.get light_id (fst (track_one maxlen f (hist, cur) light))
     = Some (rest ++ [make_observation light f]))
  /\
  (forall maxlen f hist cur light light_id history,
     find_closest (center light) hist = Some light_id ->
     PyDict.get light_id hist = Some history ->
     (length history < maxlen)%nat ->
     PyDict.get light_id (fst (track_one maxlen f (hist, cur) light))
     = Some (history ++ [make_observation light f])).
Proof.
  split; [|split].
  - intros cv capacity frames. apply run_frames_bounded; [reflexivity|].
    intros k h Hget. discriminate.
  - intros maxlen f hist cur light k oldest rest Hfind Hget Hlen.
    unfold track_one, assign_id, append_observation. rewrite Hfind, Hget.
    cbn [fst]. rewrite get_set_same, <- Hlen, append_full. reflexivity.
  - intros maxlen f hist cur light k history Hfind Hget Hlen.
    unfold track_one, assign_id, append_observation. rewrite Hfind, Hget.
    cbn [fst]. rewrite get_set_same. unfold Deque.append.
    destruct (Nat.ltb_spec maxlen (length (history ++ [make_observation light f])))
      as [Hlt|Hge]; [|reflexivity].
    rewrite length_app in Hlt. simpl in Hlt. lia.
Qed.

Lemma history_bounded_fifo_witness :
  histories_bounded 30
    (light_history (run_frames SyntheticCV (init 30) (blink_10_10 3)))
  /\ option_map (@length Observation)
       (PyDict.get "light_0"%string
          (light_history (run_frames SyntheticCV (init 30) (blink_10_10 3))))
     = Some 30%nat.
Proof.
  split.
  - apply (proj1 history_bounded_fifo SyntheticCV 30%nat (blink_10_10 3)).
  - vm_compute. reflexivity.
Defined.

(** C7. After every call of [track_lights] at frame [f], no live track has
    [f - lastSeenFrame > 10]; and over calls with strictly increasing frame
    numbers, a track that receives no observation in eleven (or more)
    calls following its last observation is no longer live afterwards. *)
Theorem eviction_after_ten_frames :
  (forall self detected_lights f light_id seen,
     last_seen (fst (track_lights self detected_lights f)) light_id = Some seen ->
     f - seen <= 10)
  /\
  (forall self calls light_id history last_obs,
     PyDict.get light_id (light_history self) = Some history ->
     Deque.last history = Some last_obs ->
     increasing_from (o_frame last_obs) (map snd calls) = true ->
     unobserved light_id self calls = true ->
     (11 <= length calls)%nat ->
     live (run_calls self calls) light_id = false).
Proof.
  split.
  - intros self lights f k seen. unfold last_seen.
    destruct (PyDict.get k (light_history (fst (track_lights self lights f))))
      as [h|] eqn:Hget; [|discriminate].
    destruct (Deque.last h) as [o|] eqn:Hlast; [|discriminate].
    simpl. intros [= <-]. eapply track_lights_age; eassumption.
  - intros self calls k h o Hget Hlast Hinc Hun Hlen.
    unfold live, PyDict.mem.
    rewrite (unobserved_evicted calls self k h o (o_frame o)); try assumption;
      [reflexivity|lia|lia].
Qed.

Lemma eviction_after_ten_frames_witness :
  last_seen seen_once "light_0" = Some 1
  /\ live seen_once "light_0" = true
  /\ live (run_calls seen_once idle_calls) "light_0" = false.
Proof.
  split; [reflexivity|]. split; [reflexivity|].
  apply (proj2 eviction_after_ten_frames seen_once idle_calls "light_0"%string
           [make_observation near_a 1] (make_observation near_a 1)).
  - reflexivity.
  - reflexivity.
  - reflexivity.
  - vm_compute. reflexivity.
  - simpl. lia.
Defined.



(** C4, as stated, fails: a single-channel frame fails the colour
    conversion and [detect_lights] raises the conversion error; it returns
    no list, and [process_frame] ends with the same exception. *)
Lemma malformed_frame_raises :
  cvtColor_BGR2HSV SyntheticCV gray_frame
  = Raise (cv2_error "Invalid number of channels in input image")
  /\ detect_lights SyntheticCV gray_frame <> Ok []
  /\ snd (process_frame SyntheticCV (init 30) gray_frame)
     = Raise (cv2_error "Invalid number of channels in input image").
Proof.
  split; [reflexivity|]. split; [discriminate|reflexivity].
Qed.

(** C4, amended. For every frame that fails the colour conversion,
    [detect_lights] raises the conversion error, and [process_frame]
    propagates it after having advanced the frame counter: the tracks are
    left as they were, with no new observation and no eviction. *)
Theorem conversion_failure_propagates
    (cv : OpenCV) (self : LightDetector) (frame : ndarray cv) (e : exn) :
  cvtColor_BGR2HSV cv frame = Raise e ->
  detect_lights cv frame = Raise e
  /\ process_frame cv self frame
     = (with_frame_count self (frame_count self + 1), Raise e)
  /\ light_history (fst (process_frame cv self frame)) = light_history self.
Proof.
  intros Hconv.
  assert (Hdet : detect_lights cv frame = Raise e).
  { unfold detect_lights. rewrite Hconv. reflexivity. }
  split; [exact Hdet|].
  unfold process_frame. rewrite Hdet. split; reflexivity.
Qed.

Lemma conversion_failure_propagates_witness :
  detect_lights SyntheticCV gray_frame
  = Raise (cv2_error "Invalid number of channels in input image")
  /\ process_frame SyntheticCV seen_once gray_frame
     = (with_frame_count seen_once (frame_count seen_once + 1),
        Raise (cv2_error "Invalid number of channels in input image"))
  /\ light_history (fst (process_frame SyntheticCV seen_once gray_frame))
     = light_history seen_once.
Proof.
  apply (conversion_failure_propagates SyntheticCV seen_once gray_frame
           (cv2_error "Invalid number of channels in input image")).
  reflexivity.
Defined.

(** C1, at the failing input. After frames 1 to 12 the left lamp's track
    [light_0] has been evicted and the right lamp's track [light_1] is
    live with twelve observations.  In frame 13 the right lamp is matched
    to [light_1]; the third lamp matches nothing, and the id made from the
    number of live tracks is [light_1] again: the new track takes the id of
    a live track and replaces its history. *)
Theorem new_track_reuses_live_id :
  let before := run_frames SyntheticCV (init 30) reuse_prefix in
  let matched :=
    fst (track_one 30 13 (light_history before, PyDict.empty) right_light) in
  let after := fst (process_frame SyntheticCV before reuse_frame) in
  PyDict.keys (light_history before) = ["light_1"%string]
  /\ option_map (@length Observation)
       (PyDict.get "light_1"%string (light_history before)) = Some 12%nat
  /\ detect_lights SyntheticCV reuse_frame = Ok [right_light; third_light]
  /\ option_map (@length Observation) (PyDict.get "light_1"%string matched)
     = Some 13%nat
  /\ find_closest (center third_light) matched = None
  /\ fst (assign_id matched third_light) = "light_1"%string
  /\ live before (fst (assign_id matched third_light)) = true
  /\ light_history after = [("light_1"%string, [make_observation third_light 13])].
Proof.
  vm_compute. repeat split; reflexivity.
Qed.

(** C3, at the failing input. Sixty frames of a lamp that is lit for ten
    frames and dimmed for ten, three times over, leave the last thirty
    states in the history: ten off, ten on, ten off.  That window has two
    transitions and both average run lengths equal to ten, and
    [classify_light_type] answers [running_light]. *)
Theorem blink_10_10_classified_running :
  let self := run_frames SyntheticCV (init default_frame_buffer_size) (blink_10_10 3) in
  length (blink_10_10 3) = 60%nat
  /\ option_map (map o_on) (PyDict.get "light_0"%string (light_history self))
     = Some (repeat false 10 ++ repeat true 10 ++ repeat false 10)
  /\ transitions (repeat false 10 ++ repeat true 10 ++ repeat false 10) = 2%nat
  /\ periods (repeat false 10 ++ repeat true 10 ++ repeat false 10)
     = ([10%nat], [10%nat; 10%nat])
  /\ classify_light_type self "light_0" = running_light
  /\ classify_light_type self "light_0" <> hazard_light.
Proof.
  vm_compute. repeat split; try reflexivity. discriminate.
Qed.

(** C6. [classify_light_type] computes the rule of the Light-State
    Classifier on the ordered on/off history of the track: fewer than ten
    observations give [unknown]; no transition gives [running_light]; more
    than three transitions with both average run lengths strictly inside
    (5, 30) give [hazard_light]; otherwise at least one transition with an
    average run length below 5 gives [hazard_light]; every other history
    gives [running_light]. *)
Theorem classify_light_type_rule (self : LightDetector) (light_id : string) :
  classify_light_type self light_id
  = match PyDict.get light_id (light_history self) with
    | Some history => spec_rule (map o_on history)
    | None => unknown
    end.
Proof.
  unfold classify_light_type.
  destruct (PyDict.get light_id (light_history self)); [|reflexivity].
  apply classify_states_spec.
Qed.

(** C9. The average of an empty period list is [float('inf')]; no division
    takes place.  And when the history has at least one transition, which
    is the only way to reach the averaging step, both period lists are
    non-empty and both averages are finite. *)
Theorem averages_total_and_finite :
  avg_period [] = Inf
  /\
  (forall states,
     (1 <= transitions states)%nat ->
     fst (periods states) <> []
     /\ snd (periods states) <> []
     /\ is_finite (avg_period (fst (periods states))) = true
     /\ is_finite (avg_period (snd (periods states))) = true).
Proof.
  split; [reflexivity|].
  intros states Ht. rewrite transitions_spec in Ht.
  destruct (flip_has_both states Ht) as [Hon Hoff].
  apply value_has_run in Hon. apply value_has_run in Hoff.
  rewrite periods_spec. unfold spec_on_periods, spec_off_periods.
  rewrite <- run_lengths_on, <- run_lengths_off. cbn [fst snd].
  repeat split; try assumption.
  - destruct (run_lengths true (spec_runs states)); [contradiction|reflexivity].
  - destruct (run_lengths false (spec_runs states)); [contradiction|reflexivity].
Qed.

Lemma averages_total_and_finite_witness :
  transitions (repeat true 5 ++ repeat false 5) = 1%nat
  /\ periods (repeat true 5 ++ repeat false 5) = ([5%nat], [5%nat])
  /\ is_finite (avg_period (fst (periods (repeat true 5 ++ repeat false 5)))) = true
  /\ is_finite (avg_period (snd (periods (repeat true 5 ++ repeat false 5)))) = true.
Proof.
  split; [reflexivity|]. split; [reflexivity|].
  apply (proj2 averages_total_and_finite (repeat true 5 ++ repeat false 5)).
  vm_compute. lia.
Defined.

(** ** The feature loop of [extract_features] *)

Lemma extract_features_keeps np detector lbl items : forall acc fv,
  In fv (fst acc) ->
  In fv (fst (fold_left (extract_features_step np detector lbl) items acc)).
Proof.
  induction items as [|item items IH]; intros acc fv Hin; [exact Hin|].
  cbn [fold_left]. apply IH. unfold extract_features_step.
  destruct (PyDict.get (fst item) (light_history detector)) as [h|]; [|exact Hin].
  destruct (10 <=? length h)%nat; [|exact Hin].
  cbn [fst]. apply in_or_app. now left.
Qed.

Lemma extract_features_adds np detector lbl k history items : forall acc h0,
  PyDict.get k (light_history detector) = Some history ->
  (10 <= length history)%nat ->
  In (k, h0) items ->
  In (feature_vector_training np history)
     (fst (fold_left (extract_features_step np detector lbl) items acc)).
Proof.
  induction items as [|item items IH]; intros acc h0 Hget Hlen Hin; [contradiction|].
  cbn [fold_left]. destruct Hin as [->|Hin].
  - apply extract_features_keeps. unfold extract_features_step. cbn [fst].
    rewrite Hget. apply Nat.leb_le in Hlen. rewrite Hlen.
    cbn [fst]. apply in_or_app. right. now left.
  - eapply IH; eassumption.
Qed.

(** C5. For a history of at least ten observations, the row that
    [classify_with_model] hands to [model.predict] and the row that
    [extract_features] appends to the training set are the same ten
    values, each computed by the same NumPy expression on the same data. *)
Theorem feature_vector_identical (np : NumPy) (history : History) :
  (10 <= length history)%nat ->
  feature_vector_online np history = feature_vector_training np history
  /\ length (feature_vector_online np history) = 10%nat
  /\ (forall predict self light_id,
        PyDict.get light_id (light_history self) = Some history ->
        classify_with_model np (Some predict) self light_id
        = predict (feature_vector_online np history))
  /\ (forall detector lbl acc light_id,
        PyDict.get light_id (light_history detector) = Some history ->
        In (feature_vector_online np history)
           (fst (extract_features_loop np detector lbl acc))).
Proof.
  intros Hlen.
  assert (Heq : feature_vector_online np history = feature_vector_training np history)
    by reflexivity.
  split; [exact Heq|]. split; [|split].
  - unfold feature_vector_online.
    destruct (0 <? transitions (map o_on history))%nat; reflexivity.
  - intros predict self light_id Hget. unfold classify_with_model.
    rewrite Hget. destruct (Nat.ltb_spec (length history) 10); [lia|reflexivity].
  - intros detector lbl acc light_id Hget. rewrite Heq.
    unfold extract_features_loop.
    eapply extract_features_adds; try eassumption.
    apply get_In. exact Hget.
Qed.

Lemma feature_vector_identical_witness :
  feature_vector_online SymbolicNumPy (steady_history 12)
  = feature_vector_training SymbolicNumPy (steady_history 12)
  /\ length (feature_vector_online SymbolicNumPy (steady_history 12)) = 10%nat.
Proof.
  destruct (feature_vector_identical SymbolicNumPy (steady_history 12))
    as (Heq & Hlen & _).
  - simpl. lia.
  - split; [exact Heq|exact Hlen].
Defined.

(* ================================================================== *)
(** * Further properties of the pipeline *)

(** ** Nearest-neighbour search *)

Lemma closest_step_ok c processed acc entry :
  closest_ok c processed acc ->
  closest_ok c (processed ++ [entry]) (closest_step c acc entry).
Proof.
  destruct entry as [k0 h0]. unfold closest_step.
  assert (Hsplit : forall k h, In (k, h) (processed ++ [(k0, h0)]) ->
                               In (k, h) processed \/ (k, h) = (k0, h0)).
  { intros k h Hin. apply in_app_or in Hin. destruct Hin as [Hin|[Hin|[]]]; auto. }
  assert (Hold : forall k h, In (k, h) processed -> In (k, h) (processed ++ [(k0, h0)]))
    by (intros; apply in_or_app; now left).
  assert (Hnew : In (k0, h0) (processed ++ [(k0, h0)]))
    by (apply in_or_app; right; now left).
  destruct (Deque.last h0) as [o|] eqn:Hlast.
  - cbv zeta. change (50 * 50) with 2500.
    assert (Hd : track_distance c h0 = Some (sq_distance c (o_center o)))
      by (unfold track_distance; now rewrite Hlast).
    set (dist := sq_distance c (o_center o)) in *.
    destruct acc as [[k|] [m|]]; intros Hok; cbn in Hok; try contradiction;
      cbn [snd below_min].
    + destruct Hok as (Hm & (h & Hin & Hh) & Hmin).
      destruct (Z.ltb_spec dist 2500) as [Hgate|Hgate];
        destruct (Z.ltb_spec dist m) as [Hlt|Hge]; cbn [andb closest_ok].
      * split; [lia|]. split; [eauto|].
        intros k' h' d Hin' Hd'. apply Hsplit in Hin'.
        destruct Hin' as [Hin'|[= -> ->]].
        -- specialize (Hmin _ _ _ Hin' Hd'). lia.
        -- rewrite Hd in Hd'. injection Hd' as <-. lia.
      * split; [exact Hm|]. split; [eauto|].
        intros k' h' d Hin' Hd'. apply Hsplit in Hin'.
        destruct Hin' as [Hin'|[= -> ->]].
        -- exact (Hmin _ _ _ Hin' Hd').
        -- rewrite Hd in Hd'. injection Hd' as <-. exact Hge.
      * lia.
      * split; [exact Hm|]. split; [eauto|].
        intros k' h' d Hin' Hd'. apply Hsplit in Hin'.
        destruct Hin' as [Hin'|[= -> ->]].
        -- exact (Hmin _ _ _ Hin' Hd').
        -- rewrite Hd in Hd'. injection Hd' as <-. exact Hge.
    + destruct (Z.ltb_spec dist 2500) as [Hgate|Hgate]; cbn [andb closest_ok].
      * split; [lia|]. split; [eauto|].
        intros k' h' d Hin' Hd'. apply Hsplit in Hin'.
        destruct Hin' as [Hin'|[= -> ->]].
        -- specialize (Hok _ _ _ Hin' Hd'). lia.
        -- rewrite Hd in Hd'. injection Hd' as <-. lia.
      * intros k' h' d Hin' Hd'. apply Hsplit in Hin'.
        destruct Hin' as [Hin'|[= -> ->]].
        -- exact (Hok _ _ _ Hin' Hd').
        -- rewrite Hd in Hd'. injection Hd' as <-. lia.
  - assert (Hd : track_distance c h0 = None)
      by (unfold track_distance; now rewrite Hlast).
    destruct acc as [[k|] [m|]]; intros Hok; cbn in Hok; try contradiction;
      cbn [closest_ok].
    + destruct Hok as (Hm & (h & Hin & Hh) & Hmin).
      split; [exact Hm|]. split; [eauto|].
      intros k' h' d Hin' Hd'. apply Hsplit in Hin'.
      destruct Hin' as [Hin'|[= -> ->]]; [exact (Hmin _ _ _ Hin' Hd')|congruence].
    + intros k' h' d Hin' Hd'. apply Hsplit in Hin'.
      destruct Hin' as [Hin'|[= -> ->]]; [exact (Hok _ _ _ Hin' Hd')|congruence].
Qed.

Lemma closest_fold_ok c hist : forall processed acc,
  closest_ok c processed acc ->
  closest_ok c (processed ++ hist) (fold_left (closest_step c) hist acc).
Proof.
  induction hist as [|entry hist IH]; intros processed acc Hok; simpl.
  - now rewrite app_nil_r.
  - replace (processed ++ entry :: hist) with ((processed ++ [entry]) ++ hist)
      by (rewrite <- app_assoc; reflexivity).
    apply IH. now apply closest_step_ok.
Qed.

Lemma find_closest_ok c hist :
  closest_ok c hist (fold_left (closest_step c) hist (None, None)).
Proof.
  apply (closest_fold_ok c hist [] (None, None)).
  intros k h d [].
Qed.

(** X1. A region is left unmatched exactly when every track that has an
    observation has its last centre 50 pixels or more away (squared
    distance at least 2500). *)
Theorem find_closest_none_iff_out_of_gate (c : Z * Z) (hist : PyDict.t History) :
  find_closest c hist = None
  <-> (forall k h d, In (k, h) hist -> track_distance c h = Some d -> 2500 <= d).
Proof.
  unfold find_closest. pose proof (find_closest_ok c hist) as Hok.
  destruct (fold_left (closest_step c) hist (None, None)) as [[k|] [m|]];
    cbn in Hok; try contradiction; cbn [fst]; split.
  - discriminate.
  - intros Hfar. destruct Hok as (Hm & (h & Hin & Hh) & _).
    specialize (Hfar _ _ _ Hin Hh). lia.
  - intros _. exact Hok.
  - reflexivity.
Qed.

(** X2. A matched region goes to a nearest track: the chosen id has an
    entry whose last centre is less than 50 pixels away, and no track with
    an observation is closer. *)
Theorem find_closest_is_nearest (c : Z * Z) (hist : PyDict.t History) (k : string) :
  find_closest c hist = Some k ->
  exists h m,
    In (k, h) hist /\ track_distance c h = Some m /\ m < 2500
    /\ (forall k' h' d,
          In (k', h') hist -> track_distance c h' = Some d -> m <= d).
Proof.
  unfold find_closest. pose proof (find_closest_ok c hist) as Hok.
  destruct (fold_left (closest_step c) hist (None, None)) as [[k0|] [m|]];
    cbn in Hok; try contradiction; cbn [fst]; [|discriminate].
  intros [= <-]. destruct Hok as (Hm & (h & Hin & Hh) & Hmin).
  exists h, m. auto.
Qed.

Lemma find_closest_is_nearest_witness :
  exists h m,
    In ("light_0"%string, h) (light_history seen_once)
    /\ track_distance (110, 100) h = Some m /\ m < 2500
    /\ (forall k' h' d,
          In (k', h') (light_history seen_once) ->
          track_distance (110, 100) h' = Some d -> m <= d).
Proof.
  apply (find_closest_is_nearest (110, 100) (light_history seen_once) "light_0").
  reflexivity.
Defined.

(** X3. A region that is 50 pixels or more from the last centre of every
    track starts a track of its own: the id is made from the number of
    live tracks, its history is the single new observation, the region is
    recorded under that id and every other id keeps its history. *)
Theorem far_region_starts_track (maxlen : nat) (f : Z) (hist : PyDict.t History)
    (cur : PyDict.t Light) (light : Light) :
  (forall k h d,
     In (k, h) hist -> track_distance (center light) h = Some d -> 2500 <= d) ->
  (1 <= maxlen)%nat ->
  PyDict.get (new_light_id hist) (fst (track_one maxlen f (hist, cur) light))
  = Some [make_observation light f]
  /\ snd (track_one maxlen f (hist, cur) light)
     = PyDict.set (new_light_id hist) light cur
  /\ (forall other, other <> new_light_id hist ->
        PyDict.get other (fst (track_one maxlen f (hist, cur) light))
        = PyDict.get other hist).
Proof.
  intros Hfar Hpos. apply find_closest_none_iff_out_of_gate in Hfar.
  unfold track_one, assign_id, append_observation. rewrite Hfar.
  cbn [fst snd]. rewrite get_set_same. cbn [fst snd].
  split; [|split].
  - rewrite get_set_same. unfold Deque.append. cbn [app length].
    destruct (Nat.ltb_spec maxlen 1); [lia|reflexivity].
  - reflexivity.
  - intros other Hne. rewrite !get_set_other by assumption. reflexivity.
Qed.

Lemma far_region_starts_track_witness :
  PyDict.get "light_1"%string
    (fst (track_one 30 2 (light_history seen_once, PyDict.empty) third_light))
  = Some [make_observation third_light 2].
Proof.
  apply (far_region_starts_track 30 2 (light_history seen_once) PyDict.empty third_light).
  - intros k h d [[= <- <-]|[]] [= <-]. vm_compute. discriminate.
  - lia.
Defined.

(** X4. A call changes only the tracks it observes.  A track whose id is
    not in the returned mapping keeps exactly its history, unless its last
    observation is more than ten frames old, in which case it is removed;
    a track seen within the last ten frames is never evicted.  A frame
    without regions returns an empty mapping, so it ages every track. *)
Theorem unobserved_tracks_only_age (self : LightDetector) (lights : list Light)
    (f : Z) (k : string) :
  PyDict.mem k (snd (track_lights self lights f)) = false ->
  PyDict.get k (light_history (fst (track_lights self lights f)))
  = match PyDict.get k (light_history self) with
    | Some h =>
        match Deque.last h with
        | Some last_obs => if 10 <? f - o_frame last_obs then None else Some h
        | None => Some h
        end
    | None => None
    end.
Proof.
  intros Hmem. rewrite track_lights_inactive by exact Hmem.
  unfold stale. cbn [in_ids existsb negb andb].
  destruct (PyDict.get k (light_history self)) as [h|]; [|reflexivity].
  destruct (Deque.last h) as [o|]; [|reflexivity].
  destruct (10 <? f - o_frame o); reflexivity.
Qed.

Lemma unobserved_tracks_only_age_witness :
  PyDict.get "light_0"%string (light_history (fst (track_lights seen_once [] 11)))
  = Some [make_observation near_a 1]
  /\ PyDict.get "light_0"%string (light_history (fst (track_lights seen_once [] 12)))
     = None.
Proof.
  split.
  - apply (unobserved_tracks_only_age seen_once [] 11 "light_0"). reflexivity.
  - apply (unobserved_tracks_only_age seen_once [] 12 "light_0"). reflexivity.
Defined.

(** ** Active tracks *)

Lemma track_loop_active_recorded maxlen f all lights : forall hist cur,
  (0 < maxlen)%nat ->
  incl lights all ->
  active_recorded f all hist cur ->
  active_recorded f all (fst (track_loop maxlen f lights (hist, cur)))
                        (snd (track_loop maxlen f lights (hist, cur))).
Proof.
  unfold track_loop, active_recorded.
  induction lights as [|light lights IH]; intros hist cur Hpos Hincl Hinv;
    simpl; [exact Hinv|].
  destruct (track_one_get maxlen f hist cur light)
    as (k & dq & Hcur & _ & Hk & Hother & Hdq).
  destruct (track_one maxlen f (hist, cur) light) as [hist' cur'] eqn:E.
  simpl in *. subst cur'.
  apply IH; [exact Hpos|intros l Hl; apply Hincl; now right|].
  intros k' Hmem. rewrite mem_set in Hmem.
  destruct (String.eqb_spec k' k) as [Heq|Hne]; [subst k'|].
  - exists (Deque.append maxlen dq (make_observation light f)), light.
    split; [exact Hk|]. split; [apply Hincl; now left|].
    now apply append_last.
  - simpl in Hmem. destruct (Hinv k' Hmem) as (h & l & Hget & Hin & Hlast).
    exists h, l. rewrite Hother by assumption. auto.
Qed.

Lemma track_lights_active_live self lights f k :
  PyDict.mem k (snd (track_lights self lights f)) = true ->
  PyDict.get k (light_history (fst (track_lights self lights f)))
  = PyDict.get k (fst (track_loop (frame_buffer_size self) f lights
                         (light_history self, PyDict.empty))).
Proof.
  rewrite track_lights_unfold. cbn [fst snd light_history]. intros Hmem.
  rewrite cleanup_get. unfold stale. rewrite in_ids_keys, Hmem. reflexivity.
Qed.

Lemma track_lights_active_recorded self lights f k :
  PyDict.mem k (snd (track_lights self lights f)) = true ->
  (1 <= frame_buffer_size self)%nat ->
  exists h light,
    PyDict.get k (light_history (fst (track_lights self lights f))) = Some h
    /\ In light lights
    /\ Deque.last h = Some (make_observation light f).
Proof.
  intros Hmem Hpos. rewrite (track_lights_active_live _ _ _ _ Hmem).
  rewrite track_lights_unfold in Hmem. cbn [snd] in Hmem.
  assert (Hinv := track_loop_active_recorded (frame_buffer_size self) f lights lights
           (light_history self) PyDict.empty).
  unfold active_recorded in Hinv.
  apply Hinv; [lia|apply incl_refl|intros k' Hk'; discriminate|exact Hmem].
Qed.

(** X5. Every id that [track_lights] returns is a live track after the
    call (the clean-up never removes it), and with a buffer of at least
    one frame its last observation records one of the regions of this
    frame, at this frame number. *)
Theorem returned_ids_are_live (self : LightDetector) (lights : list Light)
    (f : Z) (k : string) :
  PyDict.mem k (snd (track_lights self lights f)) = true ->
  (1 <= frame_buffer_size self)%nat ->
  exists h light,
    PyDict.get k (light_history (fst (track_lights self lights f))) = Some h
    /\ In light lights
    /\ Deque.last h = Some (make_observation light f).
Proof. apply track_lights_active_recorded. Qed.

Lemma returned_ids_are_live_witness :
  exists h light,
    PyDict.get "light_0"%string
      (light_history (fst (track_lights (init 30) [near_a; near_b] 1))) = Some h
    /\ In light [near_a; near_b]
    /\ Deque.last h = Some (make_observation light 1).
Proof.
  apply (returned_ids_are_live (init 30) [near_a; near_b] 1 "light_0").
  - reflexivity.
  - simpl. lia.
Defined.

(** ** What [detect_lights] reports *)

Lemma Qltb_lt a b : Qltb a b = true <-> (a < b)%Q.
Proof.
  unfold Qltb. rewrite negb_true_iff. split.
  - intros H. apply Qnot_le_lt. intros Hle.
    apply Qle_bool_iff in Hle. congruence.
  - intros H. destruct (Qle_bool b a) eqn:E; [|reflexivity].
    apply Qle_bool_iff in E. apply Qlt_not_le in H. contradiction.
Qed.

Lemma detect_contour_ok cv frame lights c lights' :
  detected_ok lights ->
  detect_contour cv frame lights c = Ok lights' ->
  detected_ok lights' /\ (length lights' <= S (length lights))%nat.
Proof.
  intros [Hall Hid]. unfold detect_contour.
  destruct (Qltb 100 (contourArea cv c)) eqn:Ea1;
    [|intros [= <-]; split; [split; assumption|lia]].
  destruct (Qltb (contourArea cv c) 50000) eqn:Ea2;
    [|intros [= <-]; split; [split; assumption|lia]].
  cbn [andb]. destruct (boundingRect cv c) as [[[x y] w] h] eqn:Er.
  destruct (0 <? h) eqn:Eh.
  2:{ change (Qltb (1 # 2) 0) with false. cbn [andb].
      intros [= <-]. split; [split; assumption|lia]. }
  destruct (Qltb (1 # 2) (inject_Z w / inject_Z h)) eqn:Er1;
    [|intros [= <-]; split; [split; assumption|lia]].
  destruct (Qltb (inject_Z w / inject_Z h) 3) eqn:Er2;
    [|intros [= <-]; split; [split; assumption|lia]].
  cbn [andb]. unfold bind.
  destruct (cvtColor_BGR2GRAY cv (roi_slice cv frame (x, y, w, h))) as [gray|e];
    [|discriminate].
  destruct (Qltb 150 (np_mean_pixels cv gray)) eqn:Ei;
    [|intros [= <-]; split; [split; assumption|lia]].
  intros [= <-]. split; [split|].
  - apply Forall_app. split; [exact Hall|]. constructor; [|constructor].
    unfold plausible_light. cbn [bbox area intensity center].
    apply Qltb_lt in Ea1, Ea2, Er1, Er2, Ei. apply Z.ltb_lt in Eh.
    repeat split; assumption.
  - intros i light Hnth.
    destruct (Nat.lt_ge_cases i (length lights)) as [Hlt|Hge].
    + rewrite nth_error_app1 in Hnth by assumption. now apply Hid.
    + rewrite nth_error_app2 in Hnth by assumption.
      destruct (i - length lights)%nat as [|j] eqn:Ej.
      * injection Hnth as <-. cbn [id]. lia.
      * destruct j; discriminate.
  - rewrite length_app. simpl. lia.
Qed.

Lemma detect_fold_raise cv frame contours e :
  fold_left
    (fun acc c => detected_lights <- acc ;; detect_contour cv frame detected_lights c)
    contours (Raise e) = Raise e.
Proof. induction contours as [|c contours IH]; simpl; auto. Qed.

Lemma detect_fold_ok cv frame contours : forall lights lights',
  detected_ok lights ->
  fold_left
    (fun acc c => detected_lights <- acc ;; detect_contour cv frame detected_lights c)
    contours (Ok lights) = Ok lights' ->
  detected_ok lights'
  /\ (length lights' <= length lights + length contours)%nat.
Proof.
  induction contours as [|c contours IH]; intros lights lights' Hok Hfold; simpl in *.
  - injection Hfold as <-. split; [exact Hok|lia].
  - destruct (detect_contour cv frame lights c) as [l1|e] eqn:Ec.
    + destruct (detect_contour_ok _ _ _ _ _ Hok Ec) as [Hok1 Hlen1].
      destruct (IH _ _ Hok1 Hfold) as [Hok' Hlen']. split; [exact Hok'|lia].
    + rewrite detect_fold_raise in Hfold. discriminate.
Qed.

Lemma detect_lights_ok cv frame lights :
  detect_lights cv frame = Ok lights -> detected_ok lights.
Proof.
  unfold detect_lights, bind at 1.
  destruct (cvtColor_BGR2HSV cv frame) as [hsv|e]; [|discriminate].
  intros Hfold. apply detect_fold_ok in Hfold; [tauto|].
  split; [constructor|]. intros [|i] light; discriminate.
Qed.

(** X6. Every region [detect_lights] reports passed all its filters: area
    strictly between 100 and 50000, a bounding box of positive height with
    width/height strictly between 0.5 and 3, mean luma above 150, and a
    centre at the middle of the bounding box; the ['id'] of a region is
    its position in the returned list. *)
Theorem detected_lights_pass_filters (cv : OpenCV) (frame : ndarray cv)
    (lights : list Light) :
  detect_lights cv frame = Ok lights ->
  Forall plausible_light lights
  /\ (forall i light, nth_error lights i = Some light -> id light = i).
Proof. intros H. exact (detect_lights_ok cv frame lights H). Qed.

Lemma detected_lights_pass_filters_witness :
  Forall plausible_light [right_light; third_light]
  /\ (forall i light,
        nth_error [right_light; third_light] i = Some light -> id light = i).
Proof.
  apply (detected_lights_pass_filters SyntheticCV reuse_frame
           [right_light; third_light]).
  reflexivity.
Defined.

(** X7. The centre of a reported region lies inside its bounding box,
    which has positive width and height. *)
Theorem detected_center_inside_bbox (cv : OpenCV) (frame : ndarray cv)
    (lights : list Light) (light : Light) :
  detect_lights cv frame = Ok lights ->
  In light lights ->
  let '(x, y, w, h) := bbox light in
  0 < w /\ 0 < h
  /\ x <= fst (center light) < x + w
  /\ y <= snd (center light) < y + h.
Proof.
  intros Hdet Hin. apply detect_lights_ok in Hdet. destruct Hdet as [Hall _].
  rewrite Forall_forall in Hall. specialize (Hall light Hin).
  unfold plausible_light in Hall.
  destruct (bbox light) as [[[x y] w] h].
  destruct Hall as (_ & _ & Hh & Hlo & _ & _ & Hc).
  assert (Hw : 0 < w).
  { destruct h as [|p|p]; try lia.
    unfold Qlt, Qdiv, Qmult, Qinv in Hlo. simpl in Hlo. lia. }
  rewrite Hc. cbn [fst snd].
  pose proof (Z.div_pos w 2 ltac:(lia) ltac:(lia)).
  pose proof (Z.div_pos h 2 ltac:(lia) ltac:(lia)).
  pose proof (Z.div_lt w 2 Hw ltac:(lia)).
  pose proof (Z.div_lt h 2 Hh ltac:(lia)).
  lia.
Qed.

Lemma detected_center_inside_bbox_witness :
  0 < 20 /\ 0 < 20 /\ 700 <= 710 < 700 + 20 /\ 100 <= 110 < 100 + 20.
Proof.
  apply (detected_center_inside_bbox SyntheticCV reuse_frame
           [right_light; third_light] third_light).
  - reflexivity.
  - right. left. reflexivity.
Defined.

(** ** Invariants of the histories along [process_frame] *)

Lemma track_loop_histories (Q : History -> Prop) maxlen f lights : forall hist cur,
  (forall dq light, In light lights -> dq = [] \/ Q dq ->
                    Q (Deque.append maxlen dq (make_observation light f))) ->
  (forall k h, PyDict.get k hist = Some h -> Q h) ->
  forall k h,
    PyDict.get k (fst (track_loop maxlen f lights (hist, cur))) = Some h -> Q h.
Proof.
  unfold track_loop.
  induction lights as [|light lights IH]; intros hist cur Hstep Hinv; simpl;
    [exact Hinv|].
  destruct (track_one_get maxlen f hist cur light)
    as (k0 & dq & Hcur & _ & Hk & Hother & Hdq).
  destruct (track_one maxlen f (hist, cur) light) as [hist' cur'] eqn:E.
  simpl in *. apply IH.
  - intros dq' l Hl. apply Hstep. now right.
  - intros k h Hget. destruct (String.eqb_spec k k0) as [Heq|Hne].
    + subst k. rewrite Hk in Hget. injection Hget as <-.
      apply Hstep; [now left|].
      destruct Hdq as [Hnil|Hold]; [now left|right; eapply Hinv; eassumption].
    + rewrite Hother in Hget by assumption. eapply Hinv; eassumption.
Qed.

Lemma track_lights_histories (Q : History -> Prop) self lights f :
  (forall dq light, In light lights -> dq = [] \/ Q dq ->
     Q (Deque.append (frame_buffer_size self) dq (make_observation light f))) ->
  (forall k h, PyDict.get k (light_history self) = Some h -> Q h) ->
  forall k h,
    PyDict.get k (light_history (fst (track_lights self lights f))) = Some h -> Q h.
Proof.
  intros Hstep Hinv k h. rewrite track_lights_unfold. cbn [fst light_history].
  intros Hget. apply cleanup_get_some in Hget. destruct Hget as [Hget _].
  eapply track_loop_histories; eassumption.
Qed.

Lemma track_lights_frame_count self lights f :
  frame_count (fst (track_lights self lights f)) = frame_count self.
Proof. rewrite track_lights_unfold. reflexivity. Qed.

Lemma process_frame_frame_count cv self frame :
  frame_count (fst (process_frame cv self frame)) = frame_count self + 1.
Proof.
  rewrite process_frame_state.
  destruct (detect_lights cv frame); [|reflexivity].
  now rewrite track_lights_frame_count.
Qed.

Lemma process_frame_buffer_size cv self frame :
  frame_buffer_size (fst (process_frame cv self frame)) = frame_buffer_size self.
Proof.
  rewrite process_frame_state.
  destruct (detect_lights cv frame); [|reflexivity].
  now rewrite track_lights_buffer_size.
Qed.

Section HistoryInvariant.
Variable cv : OpenCV.
Variable capacity : nat.
Variable Q : Z -> History -> Prop.

Hypothesis Q_later : forall f h, Q f h -> Q (f + 1) h.
Hypothesis Q_append : forall f dq light,
  1 <= f -> plausible_light light -> dq = [] \/ Q f dq ->
  Q f (Deque.append capacity dq (make_observation light f)).

Lemma process_frame_histories self frame :
  frame_buffer_size self = capacity ->
  0 <= frame_count self ->
  (forall k h, PyDict.get k (light_history self) = Some h -> Q (frame_count self) h) ->
  forall k h,
    PyDict.get k (light_history (fst (process_frame cv self frame))) = Some h ->
    Q (frame_count (fst (process_frame cv self frame))) h.
Proof.
  intros Hcap Hfc Hinv k h. rewrite process_frame_frame_count, process_frame_state.
  destruct (detect_lights cv frame) as [lights|e] eqn:Hdet.
  - apply detect_lights_ok in Hdet. destruct Hdet as [Hall _].
    rewrite Forall_forall in Hall.
    apply (track_lights_histories (Q (frame_count self + 1))).
    + cbn [frame_buffer_size with_frame_count]. rewrite Hcap.
      intros dq light Hin Hdq. apply Q_append; [lia|auto|exact Hdq].
    + cbn [light_history with_frame_count]. intros k' h' Hget.
      apply Q_later. eapply Hinv; eassumption.
  - cbn [light_history with_frame_count]. intros Hget.
    apply Q_later. eapply Hinv; eassumption.
Qed.

Lemma run_frames_histories frames : forall self,
  frame_buffer_size self = capacity ->
  0 <= frame_count self ->
  (forall k h, PyDict.get k (light_history self) = Some h -> Q (frame_count self) h) ->
  forall k h,
    PyDict.get k (light_history (run_frames cv self frames)) = Some h ->
    Q (frame_count (run_frames cv self frames)) h.
Proof.
  induction frames as [|frame frames IH]; intros self Hcap Hfc Hinv; [exact Hinv|].
  apply (IH (fst (process_frame cv self frame))).
  - now rewrite process_frame_buffer_size.
  - rewrite process_frame_frame_count. lia.
  - now apply process_frame_histories.
Qed.

Lemma run_frames_histories_init frames k h :
  PyDict.get k (light_history (run_frames cv (init capacity) frames)) = Some h ->
  Q (frame_count (run_frames cv (init capacity) frames)) h.
Proof.
  apply run_frames_histories; [reflexivity|simpl; lia|].
  intros k' h' Hget. discriminate.
Qed.

End HistoryInvariant.

(** X8. The frame counter counts the calls of [process_frame], whether they
    return or raise. *)
Theorem frame_count_counts_calls (cv : OpenCV) (self : LightDetector)
    (frames : list (ndarray cv)) :
  frame_count (run_frames cv self frames)
  = frame_count self + Z.of_nat (length frames).
Proof.
  revert self. induction frames as [|frame frames IH]; intros self.
  - simpl. lia.
  - change (run_frames cv self (frame :: frames))
      with (run_frames cv (fst (process_frame cv self frame)) frames).
    rewrite IH, process_frame_frame_count. cbn [length]. lia.
Qed.

(** X9. With a buffer of at least one frame, no track without an
    observation ever exists: after any sequence of frames from a fresh
    detector every live history is non-empty. *)
Theorem live_tracks_have_observations (cv : OpenCV) (capacity : nat)
    (frames : list (ndarray cv)) :
  (1 <= capacity)%nat ->
  histories_nonempty (light_history (run_frames cv (init capacity) frames)).
Proof.
  intros Hpos k h Hget.
  apply (run_frames_histories_init cv capacity (fun _ h => h <> [])) in Hget;
    [exact Hget|auto|].
  intros f dq light _ _ _ Hnil.
  pose proof (append_last capacity dq (make_observation light f) ltac:(lia)) as Hl.
  rewrite Hnil in Hl. discriminate.
Qed.

Lemma live_tracks_have_observations_witness :
  histories_nonempty
    (light_history (run_frames SyntheticCV (init 30) reuse_prefix)).
Proof.
  apply (live_tracks_have_observations SyntheticCV 30 reuse_prefix). lia.
Defined.

(** X10. Every observation the pipeline stores comes from a region above
    the detection threshold: its intensity exceeds 150, its on flag says
    whether the intensity exceeds 180, and its frame number lies between 1
    and the current frame counter. *)
Theorem stored_observations_recorded (cv : OpenCV) (capacity : nat)
    (frames : list (ndarray cv)) :
  all_observations
    (recorded_observation (frame_count (run_frames cv (init capacity) frames)))
    (light_history (run_frames cv (init capacity) frames)).
Proof.
  intros k h o Hget.
  refine (run_frames_histories_init cv capacity
            (fun f h => forall o, In o h -> recorded_observation f o)
            _ _ frames k h Hget o).
  - intros f h' Hall o' Hin. destruct (Hall o' Hin) as (Hi & Hon & Hf).
    repeat split; try assumption; lia.
  - intros f dq light Hf Hlight Hdq o' Hin. apply append_In in Hin.
    destruct Hin as [Hin| ->].
    + destruct Hdq as [->|Hall]; [contradiction|now apply Hall].
    + unfold plausible_light in Hlight.
      destruct (bbox light) as [[[x y] w] h0].
      destruct Hlight as (_ & _ & _ & _ & _ & Hi & _).
      unfold recorded_observation, make_observation. cbn.
      repeat split; try assumption; lia.
Qed.

Lemma nondecreasing_snoc fs f :
  nondecreasing fs -> (forall a, In a fs -> a <= f) -> nondecreasing (fs ++ [f]).
Proof.
  induction fs as [|a [|b fs] IH]; intros Hs Hle.
  - exact I.
  - simpl. split; [apply Hle; now left|exact I].
  - destruct Hs as [Hab Hs]. split; [exact Hab|].
    apply IH; [exact Hs|]. intros c Hc. apply Hle. now right.
Qed.

Lemma nondecreasing_tl fs : nondecreasing fs -> nondecreasing (tl fs).
Proof. destruct fs as [|a [|b fs]]; simpl; tauto. Qed.

(** X11. Within every history the frame numbers never decrease: the
    pipeline appends observations in frame order. *)
Theorem history_frames_nondecreasing (cv : OpenCV) (capacity : nat)
    (frames : list (ndarray cv)) (k : string) (h : History) :
  PyDict.get k (light_history (run_frames cv (init capacity) frames)) = Some h ->
  nondecreasing (map o_frame h).
Proof.
  intros Hget.
  refine (proj1 (run_frames_histories_init cv capacity
            (fun f h => nondecreasing (map o_frame h)
                        /\ forall o, In o h -> o_frame o <= f)
            _ _ frames k h Hget)).
  - intros f h' [Hs Hall]. split; [exact Hs|].
    intros o Hin. specialize (Hall o Hin). lia.
  - intros f dq light Hf _ Hdq.
    assert (Hold : nondecreasing (map o_frame dq)
                   /\ forall o, In o dq -> o_frame o <= f).
    { destruct Hdq as [->|H]; [split; [exact I|contradiction]|exact H]. }
    destruct Hold as [Hs Hall]. split.
    + unfold Deque.append.
      assert (Hsn : nondecreasing (map o_frame (dq ++ [make_observation light f]))).
      { rewrite map_app. apply nondecreasing_snoc; [exact Hs|].
        intros a Ha. apply in_map_iff in Ha. destruct Ha as (o & <- & Ho).
        now apply Hall. }
      destruct (capacity <? length (dq ++ [make_observation light f]))%nat;
        [|exact Hsn].
      replace (map o_frame (tl (dq ++ [make_observation light f])))
        with (tl (map o_frame (dq ++ [make_observation light f])))
        by (destruct (dq ++ [make_observation light f]); reflexivity).
      now apply nondecreasing_tl.
    + intros o Hin. apply append_In in Hin. destruct Hin as [Hin| ->].
      * now apply Hall.
      * cbn. lia.
Qed.

Lemma history_frames_nondecreasing_witness :
  PyDict.get "light_0"%string
    (light_history (run_frames SyntheticCV (init 30) (stream tiny_video)))
  = Some [make_observation (lamp_light true) 1;
          make_observation (lamp_light false) 2;
          make_observation (lamp_light true) 3]
  /\ nondecreasing
       (map o_frame [make_observation (lamp_light true) 1;
                     make_observation (lamp_light false) 2;
                     make_observation (lamp_light true) 3]).
Proof.
  split; [vm_compute; reflexivity|].
  apply (history_frames_nondecreasing SyntheticCV 30 (stream tiny_video)
           "light_0"%string
           [make_observation (lamp_light true) 1;
            make_observation (lamp_light false) 2;
            make_observation (lamp_light true) 3]).
  vm_compute. reflexivity.
Defined.

(** ** Runs, transitions and the classification rule *)

Lemma spec_runs_head a rest :
  exists k tail, spec_runs (a :: rest) = (a, k) :: tail.
Proof. rewrite spec_runs_cons. apply extend_run_head. Qed.

Lemma spec_runs_length a rest :
  length (spec_runs (a :: rest)) = S (spec_transitions (a :: rest)).
Proof.
  revert a. induction rest as [|b rest IH]; intros a; [reflexivity|].
  rewrite spec_runs_cons. specialize (IH b).
  destruct (spec_runs_head b rest) as (k & tail & Hb). rewrite Hb in *.
  cbn [extend_run spec_transitions].
  change (match rest with
          | [] => 0%nat
          | b0 :: _ => ((if xorb b b0 then 1 else 0) + spec_transitions rest)%nat
          end) with (spec_transitions (b :: rest)).
  destruct a, b; cbn [Bool.eqb xorb length] in *; lia.
Qed.

Lemma extend_run_sum s n runs :
  list_sum (map snd (extend_run s n runs)) = (n + list_sum (map snd runs))%nat.
Proof.
  destruct runs as [|[s' m] runs]; simpl; [lia|].
  destruct (Bool.eqb s s'); simpl; lia.
Qed.

Lemma spec_runs_sum states :
  list_sum (map snd (spec_runs states)) = length states.
Proof.
  induction states as [|s rest IH]; [reflexivity|].
  rewrite spec_runs_cons, extend_run_sum, IH. reflexivity.
Qed.

Lemma extend_run_positive s n runs :
  (1 <= n)%nat -> Forall (fun r => (1 <= snd r)%nat) runs ->
  Forall (fun r => (1 <= snd r)%nat) (extend_run s n runs).
Proof.
  intros Hn Hall. destruct runs as [|[s' m] runs]; simpl.
  - constructor; [exact Hn|constructor].
  - inversion Hall as [|r rs Hm Hrs]; subst. simpl in Hm.
    destruct (Bool.eqb s s').
    + constructor; [simpl; lia|assumption].
    + constructor; [exact Hn|]. constructor; assumption.
Qed.

Lemma spec_runs_positive states :
  Forall (fun r => (1 <= snd r)%nat) (spec_runs states).
Proof.
  induction states as [|s rest IH]; [constructor|].
  rewrite spec_runs_cons. apply extend_run_positive; [lia|exact IH].
Qed.

Lemma run_lengths_split runs :
  (length (run_lengths true runs) + length (run_lengths false runs))%nat
  = length runs
  /\ (list_sum (run_lengths true runs) + list_sum (run_lengths false runs))%nat
     = list_sum (map snd runs).
Proof.
  induction runs as [|[s n] runs [IHl IHs]]; [split; reflexivity|].
  rewrite !run_lengths_cons.
  destruct s; simpl; split; lia.
Qed.

Lemma run_lengths_positive b runs :
  Forall (fun r => (1 <= snd r)%nat) runs ->
  Forall (fun p => (1 <= p)%nat) (run_lengths b runs).
Proof.
  induction 1 as [|[s n] runs Hn Hall IH]; [constructor|].
  rewrite run_lengths_cons. destruct (Bool.eqb s b); simpl; [constructor|]; assumption.
Qed.

Lemma periods_run_lengths states :
  periods states
  = (run_lengths true (spec_runs states), run_lengths false (spec_runs states)).
Proof.
  rewrite periods_spec. unfold spec_on_periods, spec_off_periods.
  now rewrite run_lengths_on, run_lengths_off.
Qed.

(** X12. The run-length loop partitions a non-empty history into runs:
    the on and off periods together are one more than the transitions,
    they add up to the length of the history, and none is empty. *)
Theorem periods_partition_history (states : list bool) :
  states <> [] ->
  (length (fst (periods states)) + length (snd (periods states)))%nat
  = S (transitions states)
  /\ (list_sum (fst (periods states)) + list_sum (snd (periods states)))%nat
     = length states
  /\ Forall (fun p => (1 <= p)%nat) (fst (periods states) ++ snd (periods states)).
Proof.
  intros Hne. destruct states as [|a rest]; [contradiction|].
  rewrite periods_run_lengths, transitions_spec. cbn [fst snd].
  destruct (run_lengths_split (spec_runs (a :: rest))) as [Hl Hs].
  rewrite Hl, Hs, spec_runs_length, spec_runs_sum.
  repeat split. apply Forall_app.
  split; apply run_lengths_positive, spec_runs_positive.
Qed.

Lemma periods_partition_history_witness :
  (length (fst (periods [true; true; false; true]))
   + length (snd (periods [true; true; false; true])))%nat
  = S (transitions [true; true; false; true])
  /\ (list_sum (fst (periods [true; true; false; true]))
      + list_sum (snd (periods [true; true; false; true])))%nat
     = length [true; true; false; true]
  /\ Forall (fun p => (1 <= p)%nat)
       (fst (periods [true; true; false; true])
        ++ snd (periods [true; true; false; true])).
Proof.
  apply (periods_partition_history [true; true; false; true]). discriminate.
Defined.

Lemma all_periods_loop rest : forall cs cd ps,
  (let '(_, cd', ps') := fold_left all_periods_step rest (cs, cd, ps) in
   ps' ++ [cd'])
  = ps ++ map snd (extend_run cs cd (spec_runs rest)).
Proof.
  induction rest as [|s rest IH]; intros cs cd ps; [reflexivity|].
  cbn [fold_left]. rewrite spec_runs_cons. unfold all_periods_step at 2.
  destruct (Bool.eqb s cs) eqn:E.
  - apply Bool.eqb_prop in E. subst s.
    rewrite IH, extend_run_extend, Nat.add_1_r. reflexivity.
  - rewrite IH, (extend_run_other cs s cd) by (destruct cs, s; auto).
    cbn [map snd]. rewrite <- app_assoc. reflexivity.
Qed.

Lemma all_periods_runs states : all_periods states = map snd (spec_runs states).
Proof.
  destruct states as [|s0 rest]; [reflexivity|].
  unfold all_periods. rewrite spec_runs_cons.
  exact (all_periods_loop rest s0 1%nat []).
Qed.

(** X13. The period list of the feature computation has one entry per
    run: its length is one more than the transitions and its entries add
    up to the length of the history.  With at least one transition it has
    at least two entries, so neither zero fallback of [avg_period] and
    [period_std] is ever taken. *)
Theorem all_periods_cover_history (states : list bool) :
  states <> [] ->
  length (all_periods states) = S (transitions states)
  /\ list_sum (all_periods states) = length states
  /\ ((0 < transitions states)%nat ->
      all_periods states <> [] /\ (1 <? length (all_periods states))%nat = true).
Proof.
  intros Hne. destruct states as [|a rest]; [contradiction|].
  rewrite all_periods_runs, length_map, spec_runs_length, spec_runs_sum,
    transitions_spec.
  repeat split.
  - intros Hnil. apply (f_equal (@length nat)) in Hnil.
    rewrite length_map, spec_runs_length in Hnil. discriminate.
  - apply Nat.ltb_lt. lia.
Qed.

Lemma all_periods_cover_history_witness :
  length (all_periods [true; true; false; true])
  = S (transitions [true; true; false; true])
  /\ list_sum (all_periods [true; true; false; true])
     = length [true; true; false; true]
  /\ ((0 < transitions [true; true; false; true])%nat ->
      all_periods [true; true; false; true] <> []
      /\ (1 <? length (all_periods [true; true; false; true]))%nat = true).
Proof.
  apply (all_periods_cover_history [true; true; false; true]). discriminate.
Defined.

Lemma classify_states_unknown states :
  classify_states states = unknown <-> (length states < 10)%nat.
Proof.
  unfold classify_states.
  destruct (Nat.ltb_spec (length states) 10) as [Hlt|Hge]; [tauto|].
  split; [|lia].
  destruct (transitions states =? 0)%nat; [discriminate|].
  destruct (periods states) as [ons offs].
  repeat match goal with
         | |- context [if ?b then _ else _] => destruct b
         end; discriminate.
Qed.

Lemma classify_light_type_unknown_iff self k :
  classify_light_type self k = unknown
  <-> (forall h, PyDict.get k (light_history self) = Some h -> (length h < 10)%nat).
Proof.
  unfold classify_light_type.
  destruct (PyDict.get k (light_history self)) as [h|].
  - rewrite classify_states_unknown, length_map. split.
    + intros Hlt h' [= <-]. exact Hlt.
    + intros H. now apply H.
  - split; [discriminate|reflexivity].
Qed.

(** X14. The rule-based classifier answers ['unknown'] exactly when the
    history is insufficient: the id is not live or the track has fewer
    than ten observations.  From ten observations on it always decides
    between running and hazard. *)
Theorem unknown_iff_insufficient_history (self : LightDetector) (k : string) :
  classify_light_type self k = unknown
  <-> (forall h, PyDict.get k (light_history self) = Some h -> (length h < 10)%nat).
Proof. apply classify_light_type_unknown_iff. Qed.

(** X15. With or without a model, [classify_with_model] answers
    ['unknown'] on insufficient history; the model is not consulted. *)
Theorem model_not_consulted_on_short_history (np : NumPy)
    (model : option (list (float64 np) -> label))
    (self : LightDetector) (k : string) :
  (forall h, PyDict.get k (light_history self) = Some h -> (length h < 10)%nat) ->
  classify_with_model np model self k = unknown.
Proof.
  intros Hshort. unfold classify_with_model. destruct model as [predict|].
  - destruct (PyDict.get k (light_history self)) as [h|]; [|reflexivity].
    specialize (Hshort h eq_refl). apply Nat.ltb_lt in Hshort. now rewrite Hshort.
  - now apply classify_light_type_unknown_iff.
Qed.

Lemma model_not_consulted_on_short_history_witness :
  classify_with_model SymbolicNumPy (Some (fun _ => hazard_light))
    seen_once "light_0" = unknown.
Proof.
  apply (model_not_consulted_on_short_history SymbolicNumPy
           (Some (fun _ => hazard_light)) seen_once "light_0").
  intros h [= <-]. simpl. lia.
Defined.

Lemma spec_transitions_constant b states :
  (forall s, In s states -> s = b) -> spec_transitions states = 0%nat.
Proof.
  induction states as [|a [|c rest] IH]; intros Hall; try reflexivity.
  cbn [spec_transitions].
  change (match rest with
          | [] => 0%nat
          | b0 :: _ => ((if xorb c b0 then 1 else 0) + spec_transitions rest)%nat
          end) with (spec_transitions (c :: rest)).
  rewrite IH by (intros s Hs; apply Hall; now right).
  rewrite (Hall a) by (now left). rewrite (Hall c) by (right; now left).
  now rewrite xorb_nilpotent.
Qed.

(** X16. A track whose last ten or more observations all have the same
    on/off state, all on or all off, is a running light. *)
Theorem steady_history_is_running (self : LightDetector) (k : string)
    (h : History) (b : bool) :
  PyDict.get k (light_history self) = Some h ->
  (10 <= length h)%nat ->
  (forall o, In o h -> o_on o = b) ->
  classify_light_type self k = running_light.
Proof.
  intros Hget Hlen Hall. unfold classify_light_type. rewrite Hget.
  unfold classify_states. rewrite length_map.
  destruct (Nat.ltb_spec (length h) 10); [lia|].
  rewrite transitions_spec, (spec_transitions_constant b); [reflexivity|].
  intros s Hs. apply in_map_iff in Hs. destruct Hs as (o & <- & Ho). now apply Hall.
Qed.

Lemma steady_history_is_running_witness :
  classify_light_type
    {| frame_buffer_size := 30;
       light_history := [("light_0"%string, steady_history 12)];
       frame_count := 12 |} "light_0" = running_light.
Proof.
  apply (steady_history_is_running _ "light_0" (steady_history 12) true).
  - reflexivity.
  - simpl. lia.
  - intros o Ho. unfold steady_history in Ho. apply in_map_iff in Ho.
    destruct Ho as (i & <- & _). reflexivity.
Defined.

Lemma extend_run_flip s n runs :
  extend_run (negb s) n (map (fun r => (negb (fst r), snd r)) runs)
  = map (fun r => (negb (fst r), snd r)) (extend_run s n runs).
Proof.
  destruct runs as [|[s' m] runs]; [reflexivity|].
  cbn [map fst snd extend_run].
  replace (Bool.eqb (negb s) (negb s')) with (Bool.eqb s s')
    by (destruct s, s'; reflexivity).
  destruct (Bool.eqb s s'); reflexivity.
Qed.

Lemma spec_runs_flip states :
  spec_runs (map negb states)
  = map (fun r => (negb (fst r), snd r)) (spec_runs states).
Proof.
  induction states as [|s rest IH]; [reflexivity|].
  cbn [map]. rewrite !spec_runs_cons, IH. apply extend_run_flip.
Qed.

Lemma run_lengths_flip b runs :
  run_lengths b (map (fun r => (negb (fst r), snd r)) runs)
  = run_lengths (negb b) runs.
Proof.
  induction runs as [|[s n] runs IH]; [reflexivity|].
  cbn [map fst snd]. rewrite !run_lengths_cons, IH.
  destruct s, b; reflexivity.
Qed.

Lemma spec_transitions_flip states :
  spec_transitions (map negb states) = spec_transitions states.
Proof.
  induction states as [|a [|b rest] IH]; try reflexivity.
  cbn [map spec_transitions] in *. rewrite IH.
  destruct a, b; reflexivity.
Qed.

(** X17. The rule does not depend on polarity: exchanging on and off in
    every observation of a history leaves the classification unchanged. *)
Theorem classification_ignores_polarity (states : list bool) :
  classify_states (map negb states) = classify_states states.
Proof.
  unfold classify_states.
  rewrite !periods_run_lengths, !transitions_spec, length_map,
    spec_transitions_flip, spec_runs_flip, !run_lengths_flip.
  cbn [negb].
  destruct (length states <? 10)%nat; [reflexivity|].
  destruct (spec_transitions states =? 0)%nat; [reflexivity|].
  destruct (3 <? spec_transitions states)%nat;
    destruct (0 <? spec_transitions states)%nat;
    destruct (xlt (Fin 5) (avg_period (run_lengths true (spec_runs states))));
    destruct (xlt (avg_period (run_lengths true (spec_runs states))) (Fin 30));
    destruct (xlt (Fin 5) (avg_period (run_lengths false (spec_runs states))));
    destruct (xlt (avg_period (run_lengths false (spec_runs states))) (Fin 30));
    destruct (xlt (avg_period (run_lengths true (spec_runs states))) (Fin 5));
    destruct (xlt (avg_period (run_lengths false (spec_runs states))) (Fin 5));
    reflexivity.
Qed.

Lemma spec_runs_repeat a n :
  spec_runs (repeat a (S n)) = [(a, S n)].
Proof.
  induction n as [|n IH]; [reflexivity|].
  change (repeat a (S (S n))) with (a :: repeat a (S n)).
  rewrite spec_runs_cons, IH. cbn [extend_run]. now rewrite Bool.eqb_reflx.
Qed.

Lemma spec_runs_switch a n m :
  spec_runs (repeat a (S n) ++ repeat (negb a) (S m))
  = [(a, S n); (negb a, S m)].
Proof.
  induction n as [|n IH].
  - change (repeat a 1 ++ repeat (negb a) (S m)) with (a :: repeat (negb a) (S m)).
    rewrite spec_runs_cons, spec_runs_repeat. cbn [extend_run].
    destruct a; reflexivity.
  - change (repeat a (S (S n)) ++ repeat (negb a) (S m))
      with (a :: (repeat a (S n) ++ repeat (negb a) (S m))).
    rewrite spec_runs_cons, IH. cbn [extend_run]. now rewrite Bool.eqb_reflx.
Qed.

Lemma single_period_below_5 n :
  xlt (avg_period [n]) (Fin 5) = (n <? 5)%nat.
Proof.
  unfold avg_period, mean_int, xlt, Qltb, Qle_bool, Qdiv, Qmult, Qinv.
  cbn [fold_right length Qnum Qden Z.of_nat Pos.of_succ_nat].
  rewrite Nat.add_0_r.
  destruct (Nat.ltb_spec n 5) as [Hlt|Hge].
  - apply negb_true_iff. apply Z.leb_gt. simpl. lia.
  - apply negb_false_iff. apply Z.leb_le. simpl. lia.
Qed.

(** X18. A history that switches state exactly once, [n] frames in one
    state followed by [m] frames in the other, is a hazard light exactly
    when one of the two runs is shorter than five frames.  In particular a
    steady light that has just been switched is reported as a hazard
    light for the next four frames. *)
Theorem single_switch_classification (a : bool) (n m : nat) :
  (1 <= n)%nat -> (1 <= m)%nat -> (10 <= n + m)%nat ->
  classify_states (repeat a n ++ repeat (negb a) m)
  = if ((n <? 5) || (m <? 5))%nat then hazard_light else running_light.
Proof.
  intros Hn Hm Hlen.
  destruct n as [|n]; [lia|]. destruct m as [|m]; [lia|].
  unfold classify_states.
  rewrite periods_run_lengths, transitions_spec, spec_runs_switch.
  assert (Ht : spec_transitions (repeat a (S n) ++ repeat (negb a) (S m)) = 1%nat).
  { pose proof (spec_runs_length a (repeat a n ++ repeat (negb a) (S m))) as Hl.
    change (a :: repeat a n ++ repeat (negb a) (S m))
      with (repeat a (S n) ++ repeat (negb a) (S m)) in Hl.
    rewrite spec_runs_switch in Hl. cbn [length] in Hl. lia. }
  rewrite Ht, length_app, !repeat_length.
  destruct (Nat.ltb_spec (S n + S m) 10); [lia|].
  change (1 =? 0)%nat with false. change (3 <? 1)%nat with false.
  change (0 <? 1)%nat with true. cbn [andb].
  rewrite !run_lengths_cons. unfold run_lengths at 1 2. cbn [filter map app].
  destruct a; cbn [Bool.eqb negb app];
    rewrite !single_period_below_5;
    destruct (S n <? 5)%nat, (S m <? 5)%nat; reflexivity.
Qed.

Lemma single_switch_classification_witness :
  classify_states (repeat true 10 ++ repeat false 2) = hazard_light.
Proof.
  apply (single_switch_classification true 10 2); lia.
Defined.

(** ** Mappings built by successive assignments *)

Section DictFolds.
Context {V : Type}.
Implicit Types (d : PyDict.t V) (k : string) (v : V).

Lemma keys_set d k v :
  PyDict.keys (PyDict.set k v d)
  = if PyDict.mem k d then PyDict.keys d else PyDict.keys d ++ [k].
Proof.
  unfold PyDict.mem, PyDict.keys.
  induction d as [|[k0 v0] d IH]; simpl; [reflexivity|].
  destruct (String.eqb_spec k k0) as [->|Hne]; simpl; [reflexivity|].
  rewrite IH. destruct (PyDict.get k d); reflexivity.
Qed.

Lemma mem_in_keys d k : PyDict.mem k d = true <-> In k (PyDict.keys d).
Proof.
  unfold PyDict.mem, PyDict.keys.
  induction d as [|[k0 v0] d IH]; simpl; [split; [discriminate|contradiction]|].
  destruct (String.eqb_spec k k0) as [->|Hne].
  - split; auto.
  - rewrite IH. split; [auto|]. intros [Heq|Hin]; [congruence|exact Hin].
Qed.

Lemma NoDup_keys_set d k v :
  NoDup (PyDict.keys d) -> NoDup (PyDict.keys (PyDict.set k v d)).
Proof.
  intros Hnd. rewrite keys_set. destruct (PyDict.mem k d) eqn:E; [exact Hnd|].
  apply NoDup_app; [exact Hnd|repeat constructor; auto|].
  intros x Hx [<-|[]]. apply mem_in_keys in Hx. congruence.
Qed.

(** A loop whose every step assigns the key it visits, started on [d] and
    run over distinct keys that are new to [d], appends those keys in
    order. *)
Lemma keys_fold_assign (step : PyDict.t V -> string -> PyDict.t V) ks : forall d,
  (forall d' k, In k ks -> exists v, step d' k = PyDict.set k v d') ->
  NoDup ks ->
  (forall k, In k ks -> ~ In k (PyDict.keys d)) ->
  PyDict.keys (fold_left step ks d) = PyDict.keys d ++ ks.
Proof.
  induction ks as [|k ks IH]; intros d Hstep Hnd Hnew; simpl.
  - now rewrite app_nil_r.
  - inversion Hnd as [|k' ks' Hk Hnd']; subst.
    destruct (Hstep d k (or_introl eq_refl)) as [v Hv].
    rewrite IH; [|intros; apply Hstep; now right|exact Hnd'|].
    + rewrite Hv, keys_set.
      destruct (PyDict.mem k d) eqn:E.
      * apply mem_in_keys in E. exfalso. apply (Hnew k); [now left|exact E].
      * rewrite <- app_assoc. reflexivity.
    + intros k' Hk' Hin. rewrite Hv, keys_set in Hin.
      destruct (PyDict.mem k d).
      * apply (Hnew k'); [now right|exact Hin].
      * apply in_app_or in Hin. destruct Hin as [Hin|[<-|[]]].
        -- apply (Hnew k'); [now right|exact Hin].
        -- contradiction.
Qed.

Lemma fold_assign_get (g : string -> V) ks : forall d k,
  PyDict.get k (fold_left (fun cls key => PyDict.set key (g key) cls) ks d)
  = if in_ids k ks then Some (g k) else PyDict.get k d.
Proof.
  induction ks as [|k0 ks IH]; intros d k; simpl; [reflexivity|].
  rewrite IH, get_set.
  destruct (String.eqb_spec k k0) as [->|Hne]; simpl.
  - destruct (in_ids k0 ks); reflexivity.
  - reflexivity.
Qed.

End DictFolds.

Lemma track_loop_keys_nodup maxlen f lights : forall hist cur,
  NoDup (PyDict.keys cur) ->
  NoDup (PyDict.keys (snd (track_loop maxlen f lights (hist, cur)))).
Proof.
  unfold track_loop.
  induction lights as [|light lights IH]; intros hist cur Hnd; simpl; [exact Hnd|].
  destruct (track_one_get maxlen f hist cur light) as (k & dq & Hcur & _).
  destruct (track_one maxlen f (hist, cur) light) as [hist' cur'].
  simpl in *. subst cur'. apply IH. now apply NoDup_keys_set.
Qed.

Lemma track_lights_keys_nodup self lights f :
  NoDup (PyDict.keys (snd (track_lights self lights f))).
Proof.
  rewrite track_lights_unfold. cbn [snd].
  apply track_loop_keys_nodup. constructor.
Qed.

Lemma track_loop_len maxlen f lights : forall hist cur,
  (PyDict.len (snd (track_loop maxlen f lights (hist, cur)))
   <= PyDict.len cur + length lights)%nat.
Proof.
  unfold track_loop, PyDict.len.
  induction lights as [|light lights IH]; intros hist cur; simpl; [lia|].
  destruct (track_one_get maxlen f hist cur light) as (k & dq & Hcur & _).
  destruct (track_one maxlen f (hist, cur) light) as [hist' cur'].
  simpl in *. subst cur'. specialize (IH hist' (PyDict.set k light cur)).
  assert (Hset : (length (PyDict.set k light cur) <= S (length cur))%nat).
  { rewrite <- (length_map fst (PyDict.set k light cur)), <- (length_map fst cur).
    change (map fst (PyDict.set k light cur)) with (PyDict.keys (PyDict.set k light cur)).
    rewrite keys_set. destruct (PyDict.mem k cur); [unfold PyDict.keys; lia|].
    rewrite length_app. unfold PyDict.keys. simpl. lia. }
  lia.
Qed.

(** The parts of a returning [process_frame]. *)
Lemma process_frame_ok cv self frame self' lights cls :
  process_frame cv self frame = (self', Ok (lights, cls)) ->
  let self1 := with_frame_count self (frame_count self + 1) in
  detect_lights cv frame = Ok lights
  /\ self' = fst (track_lights self1 lights (frame_count self + 1))
  /\ cls = fold_left
             (fun cls light_id =>
                PyDict.set light_id (classify_light_type self' light_id) cls)
             (PyDict.keys (snd (track_lights self1 lights (frame_count self + 1))))
             PyDict.empty.
Proof.
  unfold process_frame. destruct (detect_lights cv frame) as [l|e]; [|discriminate].
  cbn [frame_count with_frame_count].
  destruct (track_lights _ l _) as [self2 tracked] eqn:Et.
  intros [= <- <- <-]. cbv zeta. cbn [fst snd frame_count with_frame_count] in *.
  rewrite ?Et. cbn [fst snd]. repeat split; reflexivity.
Qed.

Lemma process_frame_classified cv self frame self' lights cls k :
  process_frame cv self frame = (self', Ok (lights, cls)) ->
  PyDict.get k cls
  = if PyDict.mem k (snd (track_lights (with_frame_count self (frame_count self + 1))
                            lights (frame_count self + 1)))
    then Some (classify_light_type self' k) else None.
Proof.
  intros Hpf. destruct (process_frame_ok _ _ _ _ _ _ Hpf) as (_ & _ & ->).
  rewrite (fold_assign_get (classify_light_type self')), in_ids_keys. reflexivity.
Qed.

(** X19. When [process_frame] returns, every id of the classification
    mapping is a live track whose label is the rule's answer on the
    updated history and, with a buffer of at least one frame, whose last
    observation was made in this frame; and there are no more
    classifications than detected regions. *)
Theorem classifications_cover_updated_tracks (cv : OpenCV) (self self' : LightDetector)
    (frame : ndarray cv) (lights : list Light) (cls : PyDict.t label) :
  process_frame cv self frame = (self', Ok (lights, cls)) ->
  (1 <= frame_buffer_size self)%nat ->
  (forall k lbl,
     PyDict.get k cls = Some lbl ->
     lbl = classify_light_type self' k
     /\ last_seen self' k = Some (frame_count self'))
  /\ (PyDict.len cls <= length lights)%nat.
Proof.
  intros Hpf Hpos.
  pose proof (process_frame_ok _ _ _ _ _ _ Hpf) as (Hdet & Hself & Hcls).
  cbv zeta in *. split.
  - intros k lbl Hget. rewrite (process_frame_classified _ _ _ _ _ _ k Hpf) in Hget.
    destruct (PyDict.mem k _) eqn:Hmem; [|discriminate].
    injection Hget as <-. split; [reflexivity|].
    destruct (track_lights_active_recorded _ _ _ _ Hmem Hpos) as (h & light & Hh & _ & Hl).
    unfold last_seen. rewrite Hself, Hh, Hl. cbn.
    now rewrite track_lights_frame_count.
  - assert (Hkeys : PyDict.keys cls
                    = PyDict.keys (snd (track_lights
                        (with_frame_count self (frame_count self + 1))
                        lights (frame_count self + 1)))).
    { rewrite Hcls. rewrite keys_fold_assign; [reflexivity| |apply track_lights_keys_nodup|].
      - intros d' k _. eauto.
      - intros k _ []. }
    unfold PyDict.len. rewrite <- (length_map fst cls).
    change (map fst cls) with (PyDict.keys cls). rewrite Hkeys.
    unfold PyDict.keys. rewrite length_map.
    rewrite track_lights_unfold. cbn [snd].
    pose proof (track_loop_len (frame_buffer_size self) (frame_count self + 1)
                  lights (light_history self) PyDict.empty) as Hlen.
    unfold PyDict.len in Hlen. simpl in Hlen. exact Hlen.
Qed.

Lemma classifications_cover_updated_tracks_witness :
  (forall k lbl,
     PyDict.get k [("light_0"%string, unknown); ("light_1"%string, unknown)] = Some lbl ->
     lbl = classify_light_type (fst (process_frame SyntheticCV (init 30) two_lamp_frame)) k
     /\ last_seen (fst (process_frame SyntheticCV (init 30) two_lamp_frame)) k
        = Some (frame_count (fst (process_frame SyntheticCV (init 30) two_lamp_frame))))
  /\ (PyDict.len [("light_0"%string, unknown); ("light_1"%string, unknown)]
      <= length two_lamp_lights)%nat.
Proof.
  apply (classifications_cover_updated_tracks SyntheticCV (init 30) _ two_lamp_frame).
  - reflexivity.
  - simpl. lia.
Defined.

(** ** The display association of the callers *)

Lemma first_within_some radius c lights light :
  first_within radius c lights = Some light ->
  In light lights /\ sq_distance (center light) c < radius * radius.
Proof.
  unfold first_within. intros H. apply find_some in H.
  destruct H as [Hin Hd]. apply Z.ltb_lt in Hd. auto.
Qed.

Lemma first_within_self radius lights light :
  0 < radius -> In light lights ->
  exists light', first_within radius (center light) lights = Some light'.
Proof.
  intros Hr Hin. unfold first_within.
  destruct (find _ lights) as [l|] eqn:E; [eauto|].
  pose proof (find_none _ _ E light Hin) as Hfar. cbn beta in Hfar.
  apply Z.ltb_ge in Hfar. unfold sq_distance in Hfar.
  rewrite !Z.sub_diag in Hfar. simpl in Hfar.
  pose proof (Z.mul_pos_pos radius radius Hr Hr). lia.
Qed.

Lemma tracked_step_mem radius det lights tracked k k' :
  PyDict.mem k' tracked = true ->
  PyDict.mem k' (tracked_step radius det lights tracked k) = true.
Proof.
  intros Hmem. unfold tracked_step.
  destruct (PyDict.get k (light_history det)) as [h|]; [|exact Hmem].
  destruct (Deque.last h) as [o|]; [|exact Hmem].
  destruct (first_within radius (o_center o) lights); [|exact Hmem].
  rewrite mem_set, Hmem. apply orb_true_r.
Qed.

Lemma tracked_fold_sound radius det lights all ks : forall tracked,
  (forall k, In k ks -> In k all) ->
  (forall k light, PyDict.get k tracked = Some light ->
     In k all /\ In light lights
     /\ exists h o, PyDict.get k (light_history det) = Some h
                    /\ Deque.last h = Some o
                    /\ sq_distance (center light) (o_center o) < radius * radius) ->
  forall k light,
    PyDict.get k (fold_left (tracked_step radius det lights) ks tracked) = Some light ->
    In k all /\ In light lights
    /\ exists h o, PyDict.get k (light_history det) = Some h
                   /\ Deque.last h = Some o
                   /\ sq_distance (center light) (o_center o) < radius * radius.
Proof.
  induction ks as [|k0 ks IH]; intros tracked Hks Hinv; simpl; [exact Hinv|].
  apply IH; [intros k Hk; apply Hks; now right|].
  intros k light. unfold tracked_step.
  destruct (PyDict.get k0 (light_history det)) as [h|] eqn:Eh; [|apply Hinv].
  destruct (Deque.last h) as [o|] eqn:Eo; [|apply Hinv].
  destruct (first_within radius (o_center o) lights) as [l|] eqn:Ef; [|apply Hinv].
  rewrite get_set. destruct (String.eqb_spec k k0) as [Heq|Hne]; [|apply Hinv].
  subst k. intros [= <-]. apply first_within_some in Ef. destruct Ef as [Hin Hd].
  split; [apply Hks; now left|]. split; [exact Hin|]. eauto.
Qed.

Lemma tracked_fold_cover radius det lights ks : forall tracked k,
  PyDict.mem k tracked = true
  \/ (In k ks
      /\ exists h o light,
           PyDict.get k (light_history det) = Some h /\ Deque.last h = Some o
           /\ first_within radius (o_center o) lights = Some light) ->
  PyDict.mem k (fold_left (tracked_step radius det lights) ks tracked) = true.
Proof.
  induction ks as [|k0 ks IH]; intros tracked k H; simpl.
  - destruct H as [H|[[] _]]. exact H.
  - apply IH. destruct H as [H|[[Heq|Hin] Hgood]].
    + left. now apply tracked_step_mem.
    + subst k0. left. destruct Hgood as (h & o & light & Hh & Ho & Hf).
      unfold tracked_step. rewrite Hh, Ho, Hf. rewrite mem_set, String.eqb_refl.
      reflexivity.
    + right. auto.
Qed.

(** X20. Every entry of the display mapping pairs a classified id with a
    detected region that lies within the caller's radius of the track's
    last centre (30 pixels in [inference.py], 50 in the live demo). *)
Theorem tracked_entries_within_radius (radius : Z) (det : LightDetector)
    (lights : list Light) (cls : PyDict.t label) (k : string) (light : Light) :
  PyDict.get k (tracked_for_display radius det lights cls) = Some light ->
  PyDict.mem k cls = true
  /\ In light lights
  /\ exists h o,
       PyDict.get k (light_history det) = Some h
       /\ Deque.last h = Some o
       /\ sq_distance (center light) (o_center o) < radius * radius.
Proof.
  intros Hget. unfold tracked_for_display in Hget.
  apply (tracked_fold_sound radius det lights (PyDict.keys cls)) in Hget.
  - destruct Hget as (Hk & Hrest). split; [now apply mem_in_keys|exact Hrest].
  - auto.
  - intros k' l' Hnone. discriminate.
Qed.

Lemma tracked_entries_within_radius_witness :
  PyDict.mem "light_1"%string
    (PyDict.set "light_1"%string unknown PyDict.empty) = true
  /\ In third_light [right_light; third_light]
  /\ exists h o,
       PyDict.get "light_1"%string
         (light_history (fst (process_frame SyntheticCV
                                (run_frames SyntheticCV (init 30) reuse_prefix)
                                reuse_frame))) = Some h
       /\ Deque.last h = Some o
       /\ sq_distance (center third_light) (o_center o)
          < demo_radius * demo_radius.
Proof.
  apply (tracked_entries_within_radius demo_radius _ [right_light; third_light]
           (PyDict.set "light_1"%string unknown PyDict.empty) "light_1" third_light).
  vm_compute. reflexivity.
Defined.

Lemma process_frame_keys cv self frame self' lights cls :
  process_frame cv self frame = (self', Ok (lights, cls)) ->
  PyDict.keys cls
  = PyDict.keys (snd (track_lights (with_frame_count self (frame_count self + 1))
                        lights (frame_count self + 1))).
Proof.
  intros Hpf. destruct (process_frame_ok _ _ _ _ _ _ Hpf) as (_ & _ & ->).
  rewrite keys_fold_assign; [reflexivity| |apply track_lights_keys_nodup|].
  - intros d' k _. eauto.
  - intros k _ [].
Qed.

(** After a returning [process_frame], every classified id has a detected
    region at distance zero from its last centre. *)
Lemma classified_has_region cv self frame self' lights cls radius k :
  process_frame cv self frame = (self', Ok (lights, cls)) ->
  (1 <= frame_buffer_size self)%nat ->
  0 < radius ->
  PyDict.mem k cls = true ->
  exists h o light,
    PyDict.get k (light_history self') = Some h /\ Deque.last h = Some o
    /\ first_within radius (o_center o) lights = Some light.
Proof.
  intros Hpf Hpos Hr Hmem.
  pose proof (process_frame_ok _ _ _ _ _ _ Hpf) as (_ & Hself & _). cbv zeta in Hself.
  unfold PyDict.mem in Hmem.
  rewrite (process_frame_classified _ _ _ _ _ _ k Hpf) in Hmem.
  destruct (PyDict.mem k _) eqn:Hact; [|discriminate].
  destruct (track_lights_active_recorded _ _ _ _ Hact Hpos) as (h & light & Hh & Hin & Hl).
  destruct (first_within_self radius lights light Hr Hin) as [light' Hf].
  exists h, (make_observation light (frame_count self + 1)), light'.
  rewrite Hself. auto.
Qed.

(** X21. After a returning [process_frame] on a detector with a buffer of
    at least one frame, the display mapping has exactly the ids of the
    classification mapping, whatever positive radius the caller uses:
    every classified track finds a region of the frame. *)
Theorem tracked_ids_are_classified_ids (cv : OpenCV) (self self' : LightDetector)
    (frame : ndarray cv) (lights : list Light) (cls : PyDict.t label)
    (radius : Z) (k : string) :
  process_frame cv self frame = (self', Ok (lights, cls)) ->
  (1 <= frame_buffer_size self)%nat ->
  0 < radius ->
  PyDict.mem k (tracked_for_display radius self' lights cls) = PyDict.mem k cls.
Proof.
  intros Hpf Hpos Hr.
  destruct (PyDict.mem k cls) eqn:Hmem.
  - unfold tracked_for_display. apply tracked_fold_cover. right.
    split; [now apply mem_in_keys|].
    eapply classified_has_region; eassumption.
  - destruct (PyDict.mem k (tracked_for_display radius self' lights cls)) eqn:Ht;
      [|reflexivity].
    unfold PyDict.mem in Ht.
    destruct (PyDict.get k (tracked_for_display radius self' lights cls))
      as [light|] eqn:Hget; [|discriminate].
    unfold tracked_for_display in Hget.
    apply (tracked_fold_sound radius self' lights (PyDict.keys cls)) in Hget.
    + destruct Hget as [Hin _]. apply mem_in_keys in Hin. congruence.
    + auto.
    + intros k' l' Hnone. discriminate.
Qed.

Lemma tracked_ids_are_classified_ids_witness :
  PyDict.mem "light_1"%string
    (tracked_for_display inference_radius
       (fst (process_frame SyntheticCV (init 30) two_lamp_frame))
       two_lamp_lights
       [("light_0"%string, unknown); ("light_1"%string, unknown)])
  = PyDict.mem "light_1"%string
      [("light_0"%string, unknown); ("light_1"%string, unknown)].
Proof.
  apply (tracked_ids_are_classified_ids SyntheticCV (init 30) _ two_lamp_frame).
  - reflexivity.
  - simpl. lia.
  - reflexivity.
Defined.

Lemma counts_le_length (cls : PyDict.t label) :
  (running_count cls + blinking_count cls <= length cls)%nat.
Proof.
  unfold running_count, blinking_count.
  induction cls as [|[k l] cls IH]; simpl; [lia|].
  destruct l; simpl; lia.
Qed.

(** X22. In the rule-based display path the summary panel is consistent:
    after a returning [process_frame], the running and blinking counts
    taken from the classifications never add up to more than the total
    taken from the display mapping. *)
Theorem summary_counts_within_total (cv : OpenCV) (self self' : LightDetector)
    (frame : ndarray cv) (lights : list Light) (cls : PyDict.t label) (radius : Z) :
  process_frame cv self frame = (self', Ok (lights, cls)) ->
  (1 <= frame_buffer_size self)%nat ->
  0 < radius ->
  (running_count cls + blinking_count cls
   <= total_detected (tracked_for_display radius self' lights cls))%nat.
Proof.
  intros Hpf Hpos Hr.
  assert (Hkeys : PyDict.keys (tracked_for_display radius self' lights cls)
                  = PyDict.keys cls).
  { unfold tracked_for_display. rewrite keys_fold_assign; [reflexivity| | |].
    - intros d' k Hk. apply mem_in_keys in Hk.
      destruct (classified_has_region _ _ _ _ _ _ radius k Hpf Hpos Hr Hk)
        as (h & o & light & Hh & Ho & Hf).
      exists light. unfold tracked_step. now rewrite Hh, Ho, Hf.
    - rewrite (process_frame_keys _ _ _ _ _ _ Hpf). apply track_lights_keys_nodup.
    - intros k _ []. }
  unfold total_detected, PyDict.len.
  rewrite <- (length_map fst (tracked_for_display radius self' lights cls)).
  change (map fst (tracked_for_display radius self' lights cls))
    with (PyDict.keys (tracked_for_display radius self' lights cls)).
  rewrite Hkeys. unfold PyDict.keys. rewrite length_map.
  apply counts_le_length.
Qed.

Lemma summary_counts_within_total_witness :
  snd (process_frame SyntheticCV (run_frames SyntheticCV (init 30) steady_prefix)
         (bgr_frame [right_lamp]))
  = Ok ([right_light], [("light_0"%string, running_light)])
  /\ running_count [("light_0"%string, running_light)] = 1%nat
  /\ (running_count [("light_0"%string, running_light)]
      + blinking_count [("light_0"%string, running_light)]
      <= total_detected
           (tracked_for_display demo_radius
              (fst (process_frame SyntheticCV
                      (run_frames SyntheticCV (init 30) steady_prefix)
                      (bgr_frame [right_lamp])))
              [right_light]
              [("light_0"%string, running_light)]))%nat.
Proof.
  split; [vm_compute; reflexivity|]. split; [reflexivity|].
  apply (summary_counts_within_total SyntheticCV
           (run_frames SyntheticCV (init 30) steady_prefix)
           (fst (process_frame SyntheticCV
                   (run_frames SyntheticCV (init 30) steady_prefix)
                   (bgr_frame [right_lamp])))
           (bgr_frame [right_lamp])
           [right_light] [("light_0"%string, running_light)] demo_radius).
  - vm_compute. reflexivity.
  - vm_compute. lia.
  - reflexivity.
Defined.

(** ** [extract_features] *)

Lemma feature_vector_training_length np history :
  length (feature_vector_training np history) = 10%nat.
Proof.
  unfold feature_vector_training.
  destruct (0 <? transitions (map o_on history))%nat; reflexivity.
Qed.

Lemma extract_features_loop_shape np det lbl items : forall acc,
  exists rows,
    fst (fold_left (extract_features_step np det lbl) items acc) = fst acc ++ rows
    /\ snd (fold_left (extract_features_step np det lbl) items acc)
       = snd acc ++ repeat lbl (length rows)
    /\ Forall (fun row => length row = 10%nat) rows.
Proof.
  induction items as [|item items IH]; intros acc; simpl.
  - exists []. rewrite !app_nil_r. repeat split. constructor.
  - destruct (IH (extract_features_step np det lbl acc item)) as (rows & Hf & Hl & Hr).
    rewrite Hf, Hl. unfold extract_features_step.
    destruct (PyDict.get (fst item) (light_history det)) as [h|]; [|eauto].
    destruct (10 <=? length h)%nat; [|eauto].
    exists (feature_vector_training np h :: rows). cbn [fst snd length repeat].
    rewrite <- !app_assoc. repeat split.
    constructor; [apply feature_vector_training_length|exact Hr].
Qed.

Lemma extract_loop_shape cv np lbl step n : forall self frames,
  exists rows,
    features (fst (extract_loop cv np lbl step n self frames)) = features self ++ rows
    /\ labels (fst (extract_loop cv np lbl step n self frames))
       = labels self ++ repeat lbl (length rows)
    /\ Forall (fun row => length row = 10%nat) rows.
Proof.
  assert (Hnone : forall (fs : list (list (float64 np))) (ls : list label),
            exists rows, fs = fs ++ rows
                         /\ ls = ls ++ repeat lbl (length rows)
                         /\ Forall (fun row => length row = 10%nat) rows).
  { intros fs ls. exists []. rewrite !app_nil_r. repeat split. constructor. }
  induction n as [|n IH]; intros self frames; simpl; [apply Hnone|].
  destruct frames as [|frame rest]; [apply Hnone|].
  destruct (process_frame cv (detector self) frame) as [det' [ok|e]];
    [|cbn [fst features labels]; apply Hnone].
  destruct (extract_features_loop_shape np det' lbl (light_history det')
              (features self, labels self)) as (rows1 & Hf1 & Hl1 & Hr1).
  unfold extract_features_loop.
  destruct (fold_left (extract_features_step np det' lbl) (light_history det')
              (features self, labels self)) as [fs ls].
  cbn [fst snd] in Hf1, Hl1. subst fs ls.
  destruct (IH {| detector := det';
                  features := features self ++ rows1;
                  labels := labels self ++ repeat lbl (length rows1) |}
               (skipn (step - 1) rest)) as (rows2 & Hf2 & Hl2 & Hr2).
  cbn [features labels] in Hf2, Hl2.
  exists (rows1 ++ rows2). rewrite Hf2, Hl2, length_app, repeat_app, <- !app_assoc.
  repeat split. apply Forall_app. auto.
Qed.

(** X23. Whatever the video and however the call ends, [extract_features]
    only appends to the training set: the samples collected before are
    kept, every new row has ten features, and features and labels grow in
    step, each new row carrying the label of the video. *)
Theorem extract_features_appends_samples (cv : OpenCV) (np : NumPy)
    (self : LightModelTrainer np) (cap : VideoCapture cv) (lbl : label)
    (max_frames : Z) :
  exists rows,
    features (fst (extract_features cv np self cap lbl max_frames))
    = features self ++ rows
    /\ labels (fst (extract_features cv np self cap lbl max_frames))
       = labels self ++ repeat lbl (length rows)
    /\ Forall (fun row => length row = 10%nat) rows.
Proof.
  unfold extract_features.
  assert (Hnone : exists rows, features self = features self ++ rows
                         /\ labels self = labels self ++ repeat lbl (length rows)
                         /\ Forall (fun row => length row = 10%nat) rows).
  { exists []. rewrite !app_nil_r. repeat split. constructor. }
  destruct (negb (isOpened cap)); [exact Hnone|].
  destruct (sampling_step max_frames (frame_total cap)); [|exact Hnone].
  apply extract_loop_shape.
Qed.

(** X24. A video that cannot be opened leaves the trainer untouched and
    raises nothing.  An opened video for which
    [min(max_frames, total_frames)] is zero, such as a video reporting no
    frames, makes [extract_features] raise [ZeroDivisionError] before any
    frame is read. *)
Theorem extract_features_edge_cases (cv : OpenCV) (np : NumPy)
    (self : LightModelTrainer np) (cap : VideoCapture cv) (lbl : label)
    (max_frames : Z) :
  (isOpened cap = false ->
   extract_features cv np self cap lbl max_frames = (self, None))
  /\ (isOpened cap = true ->
      Z.min max_frames (frame_total cap) = 0 ->
      extract_features cv np self cap lbl max_frames
      = (self, Some ZeroDivisionError)).
Proof.
  unfold extract_features, sampling_step. split.
  - intros ->. reflexivity.
  - intros -> ->. reflexivity.
Qed.

Lemma extract_features_edge_cases_witness :
  extract_features SyntheticCV SymbolicNumPy (new_trainer SymbolicNumPy)
    empty_video hazard_light 100
  = (new_trainer SymbolicNumPy, Some ZeroDivisionError).
Proof.
  apply (proj2 (extract_features_edge_cases SyntheticCV SymbolicNumPy
                  (new_trainer SymbolicNumPy) empty_video hazard_light 100));
    reflexivity.
Defined.

Lemma sampling_step_fits max_frames total_frames :
  0 < max_frames -> 0 < total_frames ->
  exists step,
    sampling_step max_frames total_frames = Some step
    /\ 1 <= step
    /\ step * Z.min max_frames total_frames <= total_frames.
Proof.
  intros Hmax Htotal. unfold sampling_step.
  set (ftp := Z.min max_frames total_frames).
  assert (Hftp : 0 < ftp <= total_frames) by (unfold ftp; lia).
  destruct (Z.eqb_spec ftp 0) as [H0|_]; [lia|].
  exists (Z.max 1 (total_frames / ftp)). split; [reflexivity|].
  assert (Hq : 1 <= total_frames / ftp).
  { pose proof (Z.div_str_pos total_frames ftp ltac:(lia)). lia. }
  rewrite Z.max_r by exact Hq. split; [exact Hq|].
  rewrite Z.mul_comm. apply Z.mul_div_le. lia.
Qed.

Lemma process_frame_returns cv self frame lights :
  detect_lights cv frame = Ok lights ->
  exists cls, snd (process_frame cv self frame) = Ok (lights, cls).
Proof.
  intros Hdet. unfold process_frame. rewrite Hdet.
  destruct (track_lights _ lights _) as [self2 tracked]. cbn [snd]. eauto.
Qed.

Lemma In_skipn {A : Type} (k : nat) (l : list A) x : In x (skipn k l) -> In x l.
Proof.
  intros H. rewrite <- (firstn_skipn k l). apply in_or_app. now right.
Qed.

Lemma extract_loop_runs cv np lbl step n : forall self frames,
  (1 <= step)%nat ->
  (n * step < length frames + step)%nat ->
  (forall frame, In frame frames -> exists l, detect_lights cv frame = Ok l) ->
  snd (extract_loop cv np lbl step n self frames) = None
  /\ frame_count (detector (fst (extract_loop cv np lbl step n self frames)))
     = frame_count (detector self) + Z.of_nat n.
Proof.
  induction n as [|n IH]; intros self frames Hstep Hfit Hok.
  - simpl. split; [reflexivity|lia].
  - destruct frames as [|frame rest]; [simpl in Hfit; lia|].
    cbn [extract_loop].
    destruct (Hok frame (or_introl eq_refl)) as [l Hdet].
    destruct (process_frame_returns cv (detector self) frame l Hdet) as [cls Hret].
    pose proof (process_frame_frame_count cv (detector self) frame) as Hfc.
    destruct (process_frame cv (detector self) frame) as [det' r].
    cbn [fst snd] in Hret, Hfc. subst r.
    destruct (extract_features_loop np det' lbl (features self, labels self))
      as [fs ls].
    destruct (IH {| detector := det'; features := fs; labels := ls |}
                 (skipn (step - 1) rest) Hstep) as [Hnone Hcount].
    + rewrite length_skipn. cbn [length] in Hfit.
      rewrite Nat.mul_succ_l in Hfit.
      destruct (Nat.le_gt_cases (step - 1) (length rest)) as [Hle|Hgt]; lia.
    + intros f Hf. apply Hok. right. eapply In_skipn; eassumption.
    + split; [exact Hnone|]. rewrite Hcount. cbn [detector]. lia.
Qed.

(** X25. For an opened video that reports a positive frame count equal to
    the number of frames it delivers (so the video is not empty), with
    [max_frames] positive and every frame accepted by the detector,
    [extract_features] returns normally after
    processing exactly [min(max_frames, total_frames)] frames: the stride
    [max(1, total_frames // frames_to_process)] never runs past the end of
    the video. *)
Theorem extract_features_processes_all_samples (cv : OpenCV) (np : NumPy)
    (self : LightModelTrainer np) (cap : VideoCapture cv) (lbl : label)
    (max_frames : Z) :
  isOpened cap = true ->
  0 < max_frames ->
  0 < frame_total cap ->
  frame_total cap = Z.of_nat (length (stream cap)) ->
  (forall frame, In frame (stream cap) -> exists l, detect_lights cv frame = Ok l) ->
  snd (extract_features cv np self cap lbl max_frames) = None
  /\ frame_count (detector (fst (extract_features cv np self cap lbl max_frames)))
     = frame_count (detector self) + Z.min max_frames (frame_total cap).
Proof.
  intros Hopen Hmax Htotal Hlen Hok. unfold extract_features. rewrite Hopen.
  cbn [negb].
  destruct (sampling_step_fits max_frames (frame_total cap) Hmax Htotal)
    as (step & Hs & Hstep & Hfit).
  rewrite Hs.
  set (ftp := Z.min max_frames (frame_total cap)) in *.
  assert (Hftp : 0 < ftp) by (unfold ftp; lia).
  destruct (extract_loop_runs cv np lbl (Z.to_nat step) (Z.to_nat ftp) self
              (stream cap)) as [Hnone Hcount].
  - lia.
  - assert (Hprod : (Z.to_nat ftp * Z.to_nat step <= length (stream cap))%nat).
    { apply Nat2Z.inj_le. rewrite Nat2Z.inj_mul, !Z2Nat.id by lia. lia. }
    lia.
  - exact Hok.
  - split; [exact Hnone|]. rewrite Hcount, Z2Nat.id by lia. reflexivity.
Qed.

Lemma extract_features_processes_all_samples_witness :
  snd (extract_features SyntheticCV SymbolicNumPy (new_trainer SymbolicNumPy)
         tiny_video hazard_light 2) = None
  /\ frame_count
       (detector (fst (extract_features SyntheticCV SymbolicNumPy
                         (new_trainer SymbolicNumPy) tiny_video hazard_light 2)))
     = frame_count (detector (new_trainer SymbolicNumPy))
       + Z.min 2 (frame_total tiny_video).
Proof.
  apply (extract_features_processes_all_samples SyntheticCV SymbolicNumPy
           (new_trainer SymbolicNumPy) tiny_video hazard_light 2).
  - reflexivity.
  - lia.
  - reflexivity.
  - reflexivity.
  - intros frame [<-|[<-|[<-|[]]]]; eexists; reflexivity.
Defined.

(** ** Which of several candidates is chosen *)

Lemma closest_fold_keeps c post : forall k m,
  (forall k' h' d, In (k', h') post -> track_distance c h' = Some d -> m <= d) ->
  fold_left (closest_step c) post (Some k, Some m) = (Some k, Some m).
Proof.
  induction post as [|[k0 h0] post IH]; intros k m Hge; [reflexivity|].
  cbn [fold_left].
  assert (Hstep : closest_step c (Some k, Some m) (k0, h0) = (Some k, Some m)).
  { unfold closest_step. destruct (Deque.last h0) as [o|] eqn:Ho; [|reflexivity].
    cbv zeta. cbn [snd below_min].
    assert (Hd : m <= sq_distance c (o_center o)).
    { apply (Hge k0 h0); [now left|]. unfold track_distance. now rewrite Ho. }
    destruct (Z.ltb_spec (sq_distance c (o_center o)) m); [lia|].
    now rewrite andb_false_r. }
  rewrite Hstep. apply IH. intros k' h' d Hin. apply (Hge k' h' d). now right.
Qed.

(** X26. Among the tracks inside the gate the first strict minimum wins:
    a track whose last centre is less than 50 pixels away is chosen when
    every track before it in the mapping is strictly farther and no track
    after it is nearer.  Ties go to the track that was inserted first. *)
Theorem find_closest_first_minimum (c : Z * Z) (pre post : PyDict.t History)
    (k : string) (h : History) (m : Z) :
  track_distance c h = Some m ->
  m < 2500 ->
  (forall k' h' d, In (k', h') pre -> track_distance c h' = Some d -> m < d) ->
  (forall k' h' d, In (k', h') post -> track_distance c h' = Some d -> m <= d) ->
  find_closest c (pre ++ (k, h) :: post) = Some k.
Proof.
  intros Hd Hgate Hpre Hpost. unfold find_closest.
  rewrite fold_left_app. cbn [fold_left].
  pose proof (find_closest_ok c pre) as Hok.
  destruct (fold_left (closest_step c) pre (None, None)) as [[k0|] [m0|]];
    cbn in Hok; try contradiction.
  - destruct Hok as (_ & (h0 & Hin & Hh0) & _).
    specialize (Hpre _ _ _ Hin Hh0).
    assert (Hstep : closest_step c (Some k0, Some m0) (k, h) = (Some k, Some m)).
    { unfold closest_step, track_distance in *.
      destruct (Deque.last h) as [o|]; [|discriminate].
      cbn in Hd. injection Hd as Hd. cbv zeta. rewrite Hd.
      cbn [snd below_min]. change (50 * 50) with 2500.
      destruct (Z.ltb_spec m 2500); [|lia].
      destruct (Z.ltb_spec m m0); [reflexivity|lia]. }
    rewrite Hstep, closest_fold_keeps by exact Hpost. reflexivity.
  - assert (Hstep : closest_step c (None, None) (k, h) = (Some k, Some m)).
    { unfold closest_step, track_distance in *.
      destruct (Deque.last h) as [o|]; [|discriminate].
      cbn in Hd. injection Hd as Hd. cbv zeta. rewrite Hd.
      cbn [snd below_min]. change (50 * 50) with 2500.
      destruct (Z.ltb_spec m 2500); [reflexivity|lia]. }
    rewrite Hstep, closest_fold_keeps by exact Hpost. reflexivity.
Qed.

Lemma find_closest_first_minimum_witness :
  find_closest (110, 100) tie_history = Some "light_0"%string.
Proof.
  apply (find_closest_first_minimum (110, 100) []
           [("light_1"%string,
             [{| o_center := (120, 100); o_intensity := 200;
                 o_frame := 1; o_on := true |}])]
           "light_0" [make_observation near_a 1] 100).
  - reflexivity.
  - lia.
  - intros k' h' d [].
  - intros k' h' d [[= <- <-]|[]] [= <-]. vm_compute. discriminate.
Defined.
